(** * Spaceship simulation: a shallow embedding of [spaceship_sim]

    The development follows the three modules of the package that carry the
    flight model: [components.py], [physics.py] and [spaceship.py].

    Numbers.  Python's [float] is idealised as a real number ([R]): rounding,
    overflow (the [OverflowError] of [**] at very large speeds), infinities,
    NaN and signed zeros are outside the model.  The one failure a float
    division of this code can raise, [ZeroDivisionError] on [/], is kept:
    every Python division is [fdiv], which returns an error when the divisor
    is zero, and functions that divide live in the [result] monad.  The fuel
    accounting of [compute_propulsion] is given a second time with a rounding
    function applied to the result of each float operation ([burn]).

    State.  The only mutable field is [FuelTank.fuel_level]; the functions that
    mutate it return the updated tanks, and [Spaceship.simulate_step] returns
    the updated craft.  Tanks are values in [drain_tanks], which is the loop
    on a list of distinct objects; [drain_store] is the same loop on tank
    objects that a list names by identity, where one object can be listed
    twice. *)

From Stdlib Require Import Reals Lra Psatz List String ZArith Bool.
From Stdlib Require Import Permutation.
Import ListNotations.
Local Open Scope R_scope.

(** ** Errors *)

Inductive result (A : Type) : Type :=
| Ok (a : A)
| ZeroDivisionError.

Arguments Ok {A} a.
Arguments ZeroDivisionError {A}.

Definition bind {A B : Type} (m : result A) (k : A -> result B) : result B :=
  match m with
  | Ok a => k a
  | ZeroDivisionError => ZeroDivisionError
  end.

Notation "x <- m ;; k" := (bind m (fun x => k))
  (at level 61, m at next level, right associativity).
Notation "' p <- m ;; k" := (bind m (fun p => k))
  (at level 61, p pattern, m at next level, right associativity).

(** ** Float operations of Python used by the package *)

(** [a / b] on floats. *)
Definition fdiv (a b : R) : result R :=
  if Req_dec_T b 0 then ZeroDivisionError else Ok (a / b).

(** The builtin [min(a, b)]: the first argument unless the second is smaller. *)
Definition py_min (a b : R) : R := if Rlt_dec b a then b else a.

(** The builtin [max(a, b)]: the first argument unless the second is larger. *)
Definition py_max (a b : R) : R := if Rlt_dec a b then b else a.

(** The builtin [sum] over a generator expression: left to right from 0. *)
Definition py_sum {A : Type} (f : A -> R) (l : list A) : R :=
  fold_left (fun acc x => acc + f x) l 0.

(** [math.hypot], [math.degrees], [math.radians]. *)
Definition hypot (x y : R) : R := sqrt (x * x + y * y).
Definition degrees (x : R) : R := x * (180 / PI).
Definition radians (x : R) : R := x * (PI / 180).

(** [math.atan2(y, x)], the angle of the point [(x, y)] in (-pi, pi]. *)
Definition atan2 (y x : R) : R :=
  if Rlt_dec 0 x then atan (y / x)
  else if Rlt_dec x 0 then
         (if Rle_dec 0 y then atan (y / x) + PI else atan (y / x) - PI)
  else if Rlt_dec 0 y then PI / 2
  else if Rlt_dec y 0 then - (PI / 2)
  else 0.

(** ** components.py *)

Definition Vector2 : Type := (R * R)%type.

Definition add_vectors (a b : Vector2) : Vector2 :=
  (fst a + fst b, snd a + snd b).

Module Component.

Record t : Type := Build {
  name : string;
  mass : R;
  position : Vector2;
  size : Vector2;
  drag_area : R;
  inertia_override : option R
}.

(** The [inertia] property. *)
Definition inertia (self : t) : R :=
  match inertia_override self with
  | Some i => i
  | None =>
      let '(width, height) := size self in
      (mass self * (width ^ 2 + height ^ 2)) / 12
  end.

End Component.

Record Engine : Type := {
  engine_base : Component.t;
  thrust : R;
  fuel_consumption : R;
  gimbal_limit : R;
  direction : Vector2
}.

Record FuelTank : Type := {
  tank_base : Component.t;
  fuel_capacity : R;
  fuel_level : R
}.

Record Wing : Type := {
  wing_base : Component.t;
  area : R;
  lift_curve : R;
  stall_angle : R
}.

Record HullSection : Type := {
  hull_base : Component.t;
  structural_integrity : R
}.

Record Cockpit : Type := {
  cockpit_base : Component.t;
  crew_capacity : Z
}.

(** An instance of [Component] or of one of its subclasses. *)
Inductive AnyComponent : Type :=
| IsComponent (c : Component.t)
| IsEngine (e : Engine)
| IsFuelTank (t : FuelTank)
| IsWing (w : Wing)
| IsHullSection (h : HullSection)
| IsCockpit (c : Cockpit).

(** The inherited [Component] fields of any instance. *)
Definition base (x : AnyComponent) : Component.t :=
  match x with
  | IsComponent c => c
  | IsEngine e => engine_base e
  | IsFuelTank t => tank_base t
  | IsWing w => wing_base w
  | IsHullSection h => hull_base h
  | IsCockpit c => cockpit_base c
  end.

(** [tank.fuel_level = v], the only assignment to a component field. *)
Definition set_fuel_level (tank : FuelTank) (v : R) : FuelTank :=
  {| tank_base := tank_base tank;
     fuel_capacity := fuel_capacity tank;
     fuel_level := v |}.

(** ** physics.py *)

Definition EARTH_GRAVITY : R := 980665 / 100000.
Definition ATMOSPHERIC_DENSITY : R := 1225 / 1000.
Definition DRAG_COEFFICIENT : R := 7 / 10.

Definition add (a b : Vector2) : Vector2 := (fst a + fst b, snd a + snd b).
Definition sub (a b : Vector2) : Vector2 := (fst a - fst b, snd a - snd b).
Definition mul (a : Vector2) (scalar : R) : Vector2 :=
  (fst a * scalar, snd a * scalar).
Definition length (v : Vector2) : R := hypot (fst v) (snd v).

Definition normalize (v : Vector2) : result Vector2 :=
  let mag := length v in
  if Req_dec_T mag 0 then Ok (0, 0)
  else
    x <- fdiv (fst v) mag ;;
    y <- fdiv (snd v) mag ;;
    Ok (x, y).

Definition rotate (v : Vector2) (angle : R) : Vector2 :=
  let c := cos angle in
  let s := sin angle in
  (fst v * c - snd v * s, fst v * s + snd v * c).

Definition cross_z (a b : Vector2) : R := fst a * snd b - snd a * fst b.

Definition aerodynamic_drag (velocity : Vector2) (reference_area cd : R)
  : result Vector2 :=
  let speed := length velocity in
  if Req_dec_T speed 0 then Ok (0, 0)
  else
    let drag_magnitude :=
      (5 / 10) * ATMOSPHERIC_DENSITY * cd * reference_area * speed ^ 2 in
    n <- normalize (mul velocity (-1)) ;;
    Ok (mul n drag_magnitude).

Definition aerodynamic_lift (wing : Wing) (velocity_body : Vector2) : Vector2 :=
  let speed := length velocity_body in
  if Req_dec_T speed 0 then (0, 0)
  else
    let angle := degrees (atan2 (snd velocity_body) (fst velocity_body)) in
    let alpha :=
      py_max (py_min (- angle) (stall_angle wing)) (- stall_angle wing) in
    let cl := lift_curve wing * radians alpha in
    let q := (5 / 10) * ATMOSPHERIC_DENSITY * speed ^ 2 in
    let lift_magnitude := cl * q * area wing in
    let lift_direction : Vector2 := (0, 1) in
    mul lift_direction lift_magnitude.

Record PropulsionResult : Type := {
  force : Vector2;
  torque : R;
  fuel_used : R
}.

(** The field [torque] of the source; the name is taken by
    [PropulsionResult]. *)
Record ForceResult : Type := {
  linear : Vector2;
  aero_torque : R
}.

(** One iteration of the loop over the engines in [compute_propulsion]; the
    accumulator is [(total_force, total_torque, fuel_needed)]. *)
Definition engine_step (throttle orientation : R) (com : Vector2)
  (acc : Vector2 * R * R) (engine : Engine) : Vector2 * R * R :=
  let '(total_force, total_torque, fuel_needed) := acc in
  let thrust_vector := rotate (direction engine) orientation in
  let thrust_force := mul thrust_vector (thrust engine * throttle) in
  let lever := sub (Component.position (engine_base engine)) com in
  (add total_force thrust_force,
   total_torque + cross_z lever thrust_force,
   fuel_needed + fuel_consumption engine * throttle).

(** The loop over the engines, run on an already clamped throttle. *)
Definition accumulate_engines (engines : list Engine)
  (throttle orientation : R) (com : Vector2) : Vector2 * R * R :=
  fold_left (engine_step throttle orientation com) engines ((0, 0), 0, 0).

(** The loop that drains the tanks in list order, with its [break]. *)
Fixpoint drain_tanks (fuel_tanks : list FuelTank) (drain : R) : list FuelTank :=
  match fuel_tanks with
  | [] => []
  | tank :: rest =>
      if Rle_dec drain 0 then tank :: rest
      else
        let taken := py_min (fuel_level tank) drain in
        set_fuel_level tank (fuel_level tank - taken)
          :: drain_tanks rest (drain - taken)
  end.

(** Returns the result together with the tanks as the call leaves them. *)
Definition compute_propulsion (engines : list Engine) (fuel_tanks : list FuelTank)
  (throttle orientation : R) (com : Vector2)
  : result (PropulsionResult * list FuelTank) :=
  let throttle := py_max 0 (py_min 1 throttle) in
  let '(total_force, total_torque, fuel_needed) :=
    accumulate_engines engines throttle orientation com in
  let fuel_available := py_sum fuel_level fuel_tanks in
  let fuel_used := py_min fuel_available fuel_needed in
  '(total_force, total_torque) <-
    (if Rlt_dec 0 fuel_needed then
       scale <- fdiv fuel_used fuel_needed ;;
       Ok (mul total_force scale, total_torque * scale)
     else Ok (total_force, total_torque)) ;;
  let fuel_tanks :=
    if Rlt_dec 0 fuel_used then drain_tanks fuel_tanks fuel_used
    else fuel_tanks in
  Ok ({| force := total_force; torque := total_torque; fuel_used := fuel_used |},
      fuel_tanks).

(** A [for] loop whose body may raise. *)
Fixpoint for_each {A B : Type} (body : B -> A -> result B) (l : list A) (acc : B)
  : result B :=
  match l with
  | [] => Ok acc
  | x :: rest => acc' <- body acc x ;; for_each body rest acc'
  end.

(** The velocity of the point [pos] of the rigid body. *)
Definition point_velocity (velocity : Vector2) (angular_velocity : R)
  (pos com : Vector2) : Vector2 :=
  add velocity (- angular_velocity * (snd pos - snd com),
                angular_velocity * (fst pos - fst com)).

(** Body of the loop over [components] in [compute_aero_forces]. *)
Definition drag_step (velocity : Vector2) (angular_velocity orientation : R)
  (com : Vector2) (acc : Vector2 * R) (comp : AnyComponent)
  : result (Vector2 * R) :=
  let '(total_force, total_torque) := acc in
  let pos := Component.position (base comp) in
  let world_velocity := point_velocity velocity angular_velocity pos com in
  drag_force_body <-
    aerodynamic_drag (rotate world_velocity (- orientation))
      (Component.drag_area (base comp)) DRAG_COEFFICIENT ;;
  let drag_force_world := rotate drag_force_body orientation in
  let lever := sub pos com in
  Ok (add total_force drag_force_world,
      total_torque + cross_z lever drag_force_world).

(** Body of the loop over [wings] in [compute_aero_forces]. *)
Definition lift_step (velocity : Vector2) (angular_velocity orientation : R)
  (com : Vector2) (acc : Vector2 * R) (wing : Wing) : result (Vector2 * R) :=
  let '(total_force, total_torque) := acc in
  let pos := Component.position (wing_base wing) in
  let world_velocity := point_velocity velocity angular_velocity pos com in
  let velocity_body := rotate world_velocity (- orientation) in
  let lift_body := aerodynamic_lift wing velocity_body in
  let lift_world := rotate lift_body orientation in
  let lever := sub pos com in
  Ok (add total_force lift_world, total_torque + cross_z lever lift_world).

Definition compute_aero_forces (components : list AnyComponent)
  (wings : list Wing) (velocity : Vector2)
  (angular_velocity orientation : R) (com : Vector2) : result ForceResult :=
  acc <- for_each (drag_step velocity angular_velocity orientation com)
           components ((0, 0), 0) ;;
  acc <- for_each (lift_step velocity angular_velocity orientation com)
           wings acc ;;
  Ok {| linear := fst acc; aero_torque := snd acc |}.

Definition integrate (position velocity : Vector2)
  (orientation angular_velocity : R) (force : Vector2)
  (torque mass inertia dt : R) : result (Vector2 * Vector2 * R * R) :=
  acceleration <-
    (if Rlt_dec 0 mass then inv <- fdiv 1 mass ;; Ok (mul force inv)
     else Ok (0, 0)) ;;
  let velocity := add velocity (mul acceleration dt) in
  let position := add position (mul velocity dt) in
  angular_acc <- (if Rlt_dec 0 inertia then fdiv torque inertia else Ok 0) ;;
  let angular_velocity := angular_velocity + angular_acc * dt in
  let orientation := orientation + angular_velocity * dt in
  Ok (position, velocity, orientation, angular_velocity).

(** ** spaceship.py *)

Module Spaceship.

Record t : Type := Build {
  components : list AnyComponent;
  engines : list Engine;
  fuel_tanks : list FuelTank;
  wings : list Wing;
  position : Vector2;
  velocity : Vector2;
  orientation : R;
  angular_velocity : R
}.

(** [Spaceship()]: no parts, at rest, nose up. *)
Definition new : t :=
  {| components := []; engines := []; fuel_tanks := []; wings := [];
     position := (0, 0); velocity := (0, 0);
     orientation := radians 90; angular_velocity := 0 |}.

Definition all_components (self : t) : list AnyComponent :=
  components self ++ map IsEngine (engines self)
    ++ map IsFuelTank (fuel_tanks self) ++ map IsWing (wings self).

Definition mass (self : t) : R :=
  py_sum (fun comp => Component.mass (base comp)) (all_components self).

Definition center_of_mass (self : t) : result Vector2 :=
  let total_mass := mass self in
  if Req_dec_T total_mass 0 then Ok (0, 0)
  else
    cx <- fdiv (py_sum (fun comp => fst (Component.position (base comp))
                                    * Component.mass (base comp))
                  (all_components self)) total_mass ;;
    cy <- fdiv (py_sum (fun comp => snd (Component.position (base comp))
                                    * Component.mass (base comp))
                  (all_components self)) total_mass ;;
    Ok (cx, cy).

Definition moment_of_inertia (self : t) : result R :=
  com <- center_of_mass self ;;
  Ok (fold_left
        (fun inertia comp =>
           let r := sub (Component.position (base comp)) com in
           inertia + (Component.inertia (base comp)
                      + Component.mass (base comp) * (fst r ^ 2 + snd r ^ 2)))
        (all_components self) 0).

Definition attach (self : t) (component : AnyComponent) : t :=
  match component with
  | IsEngine e =>
      Build (components self) (engines self ++ [e]) (fuel_tanks self)
        (wings self) (position self) (velocity self) (orientation self)
        (angular_velocity self)
  | IsFuelTank tk =>
      Build (components self) (engines self) (fuel_tanks self ++ [tk])
        (wings self) (position self) (velocity self) (orientation self)
        (angular_velocity self)
  | IsWing w =>
      Build (components self) (engines self) (fuel_tanks self)
        (wings self ++ [w]) (position self) (velocity self)
        (orientation self) (angular_velocity self)
  | other =>
      Build (components self ++ [other]) (engines self) (fuel_tanks self)
        (wings self) (position self) (velocity self) (orientation self)
        (angular_velocity self)
  end.


(** The craft with its tanks replaced by their drained state. *)
Definition with_fuel_tanks (self : t) (tanks : list FuelTank) : t :=
  Build (components self) (engines self) tanks (wings self) (position self)
    (velocity self) (orientation self) (angular_velocity self).

(** Returns the craft as the call leaves it, then the two results. *)
Definition apply_controls (self : t) (throttle : R)
  (control_surfaces : list (string * R))
  : result (t * PropulsionResult * ForceResult) :=
  com <- center_of_mass self ;;
  '(propulsion, tanks) <-
    compute_propulsion (engines self) (fuel_tanks self) throttle
      (orientation self) com ;;
  let self := with_fuel_tanks self tanks in
  aero <- compute_aero_forces (all_components self) (wings self)
            (velocity self) (angular_velocity self) (orientation self) com ;;
  Ok (self, propulsion, aero).

(** The method returns [None]; the value here is the craft afterwards. *)
Definition simulate_step (self : t) (throttle dt : R)
  (control_surfaces : option (list (string * R))) : result t :=
  let control_surfaces :=
    match control_surfaces with None => [] | Some d => d end in
  '(self, propulsion, aero) <- apply_controls self throttle control_surfaces ;;
  let weight : Vector2 := (0, - mass self * EARTH_GRAVITY) in
  let total_force := add (add (force propulsion) (linear aero)) weight in
  com <- center_of_mass self ;;
  let gravity_torque := 0 in
  let total_torque := torque propulsion + aero_torque aero + gravity_torque in
  inertia <- moment_of_inertia self ;;
  '(position', velocity', orientation', angular_velocity') <-
    integrate (position self) (velocity self) (orientation self)
      (angular_velocity self) total_force total_torque (mass self)
      (py_max inertia (1 / 1000)) dt ;;
  Ok (Build (components self) (engines self) (fuel_tanks self) (wings self)
        position' velocity' orientation' angular_velocity').

End Spaceship.

Import Spaceship.

(** * Specification vocabulary *)

(** The throttle after clamping, as [compute_propulsion] computes it. *)
Definition clamped (throttle : R) : R := py_max 0 (py_min 1 throttle).

(** Total fuel in a list of tanks. *)
Definition fuel_available (tanks : list FuelTank) : R := py_sum fuel_level tanks.

(** The fuel the engines ask for at a given raw throttle. *)
Definition fuel_needed (engines : list Engine) (throttle orientation : R)
  (com : Vector2) : R :=
  snd (accumulate_engines engines (clamped throttle) orientation com).

(** Force and torque accumulated over the engines, before any derating. *)
Definition nominal_force (engines : list Engine) (throttle orientation : R)
  (com : Vector2) : Vector2 :=
  fst (fst (accumulate_engines engines (clamped throttle) orientation com)).

Definition nominal_torque (engines : list Engine) (throttle orientation : R)
  (com : Vector2) : R :=
  snd (fst (accumulate_engines engines (clamped throttle) orientation com)).

(** The data-model invariant of a fuel tank. *)
Definition tank_ok (tank : FuelTank) : Prop :=
  0 <= fuel_level tank <= fuel_capacity tank.

(** What [compute_propulsion] returns, written without the monad. *)
Definition propulsion_outcome (engines : list Engine) (tanks : list FuelTank)
  (throttle orientation : R) (com : Vector2) : PropulsionResult * list FuelTank :=
  let needed := fuel_needed engines throttle orientation com in
  let used := py_min (fuel_available tanks) needed in
  let F := nominal_force engines throttle orientation com in
  let T := nominal_torque engines throttle orientation com in
  ({| force := if Rlt_dec 0 needed then mul F (used / needed) else F;
      torque := if Rlt_dec 0 needed then T * (used / needed) else T;
      fuel_used := used |},
   if Rlt_dec 0 used then drain_tanks tanks used else tanks).

(** Semi-implicit Euler as the specification words it: the velocities are
    updated first and the updated values advance position and orientation. *)
Definition semi_implicit_euler (position velocity : Vector2)
  (orientation angular_velocity : R) (force : Vector2)
  (torque mass inertia dt : R) : Vector2 * Vector2 * R * R :=
  let acceleration : Vector2 :=
    if Rlt_dec 0 mass then (fst force / mass, snd force / mass) else (0, 0) in
  let velocity' : Vector2 :=
    (fst velocity + fst acceleration * dt, snd velocity + snd acceleration * dt) in
  let position' : Vector2 :=
    (fst position + fst velocity' * dt, snd position + snd velocity' * dt) in
  let angular_acc := if Rlt_dec 0 inertia then torque / inertia else 0 in
  let angular_velocity' := angular_velocity + angular_acc * dt in
  let orientation' := orientation + angular_velocity' * dt in
  (position', velocity', orientation', angular_velocity').

(** Explicit Euler: position and orientation advance with the velocities
    they had before the update. *)
Definition explicit_euler (position velocity : Vector2)
  (orientation angular_velocity : R) (force : Vector2)
  (torque mass inertia dt : R) : Vector2 * Vector2 * R * R :=
  let acceleration : Vector2 :=
    if Rlt_dec 0 mass then (fst force / mass, snd force / mass) else (0, 0) in
  let angular_acc := if Rlt_dec 0 inertia then torque / inertia else 0 in
  ((fst position + fst velocity * dt, snd position + snd velocity * dt),
   (fst velocity + fst acceleration * dt, snd velocity + snd acceleration * dt),
   orientation + angular_velocity * dt,
   angular_velocity + angular_acc * dt).

(** The forces and the new kinematic state of one tick, given what the
    force models returned. *)
Definition tick_state (s : Spaceship.t) (r : PropulsionResult)
  (aero : ForceResult) (inertia dt : R) : Vector2 * Vector2 * R * R :=
  semi_implicit_euler (position s) (velocity s) (orientation s)
    (angular_velocity s)
    (add (add (force r) (linear aero)) (0, - mass s * EARTH_GRAVITY))
    (torque r + aero_torque aero + 0) (mass s)
    (py_max inertia (1 / 1000)) dt.

(** The craft after a tick: new kinematic state, the lists as they are. *)
Definition moved (s : Spaceship.t) (k : Vector2 * Vector2 * R * R) : Spaceship.t :=
  let '(p, v, o, w) := k in
  Spaceship.Build (components s) (engines s) (fuel_tanks s) (wings s) p v o w.

(** Squared distance between two points. *)
Definition squared_distance (p q : Vector2) : R :=
  (fst p - fst q) ^ 2 + (snd p - snd q) ^ 2.










(** * Example parts and crafts *)

(** A unit-size part without drag area, for the instances below. *)
Definition part (n : string) (m : R) (p : Vector2) : Component.t :=
  Component.Build n m p (1, 1) 0 None.

(** An engine whose consumption rate is negative. *)
Definition refuelling_engine : Engine :=
  {| engine_base := part "engine" 1 (0, 0);
     thrust := 0; fuel_consumption := -1; gimbal_limit := 0;
     direction := (1, 0) |}.

(** A tank at half of its capacity. *)
Definition half_tank : FuelTank :=
  {| tank_base := part "tank" 1 (0, 0); fuel_capacity := 10; fuel_level := 5 |}.

(** An ordinary engine, for the instances below. *)
Definition thirsty_engine : Engine :=
  {| engine_base := part "engine" 1 (0, 0);
     thrust := 100; fuel_consumption := 10; gimbal_limit := 0;
     direction := (1, 0) |}.

(** A craft made of [thirsty_engine] and [half_tank]. *)
Definition burning_craft : Spaceship.t :=
  attach (attach Spaceship.new (IsEngine thirsty_engine)) (IsFuelTank half_tank).

(** The same craft with a wing. *)
Definition port_wing : Wing :=
  {| wing_base := part "wing" 180 (-1 / 2, -5 / 2);
     area := 17 / 2; lift_curve := 46 / 10; stall_angle := 14 |}.

Definition winged_craft : Spaceship.t := attach burning_craft (IsWing port_wing).

(** Two equal pods at opposite positions. *)
Definition left_pod : AnyComponent :=
  IsComponent (Component.Build "pod" 3 (2, 1) (1, 1) 0 None).
Definition right_pod : AnyComponent :=
  IsComponent (Component.Build "pod" 3 (-2, -1) (1, 1) 0 None).
Definition twin_craft : Spaceship.t :=
  attach (attach Spaceship.new left_pod) right_pod.

(** A light craft with a large drag area: engine and tank at the origin. *)
Definition kite_engine : Engine :=
  {| engine_base := Component.Build "engine" 1 (0, 0) (1, 1) 2 None;
     thrust := 40; fuel_consumption := 1; gimbal_limit := 0;
     direction := (1, 0) |}.

Definition kite_tank : FuelTank :=
  {| tank_base := part "tank" 1 (0, 0);
     fuel_capacity := 100; fuel_level := 100 |}.




(** A drag-free rocket: engine and tank at the origin. *)
Definition rocket_engine : Engine :=
  {| engine_base := part "engine" 1 (0, 0);
     thrust := 40; fuel_consumption := 1; gimbal_limit := 0;
     direction := (1, 0) |}.

Definition rocket : Spaceship.t :=
  attach (attach Spaceship.new (IsEngine rocket_engine)) (IsFuelTank kite_tank).

(** * Further parts of the package *)

(** ** components.py: [Component.translate] *)

(** The call [type(self)(name=..., mass=..., position=new_pos, size=...,
    drag_area=..., **self._extra_init_kwargs())] on the inherited fields:
    [inertia_override] is not among the arguments and takes its default. *)
Definition translate_base (self : Component.t) (offset : Vector2) : Component.t :=
  let new_pos := add_vectors (Component.position self) offset in
  Component.Build (Component.name self) (Component.mass self) new_pos
    (Component.size self) (Component.drag_area self) None.

(** [translate] on an instance of any class: [type(self)] keeps the class and
    [_extra_init_kwargs] hands over the fields the class adds. *)
Definition translate (self : AnyComponent) (offset : Vector2) : AnyComponent :=
  match self with
  | IsComponent c => IsComponent (translate_base c offset)
  | IsEngine e =>
      IsEngine {| engine_base := translate_base (engine_base e) offset;
                  thrust := thrust e;
                  fuel_consumption := fuel_consumption e;
                  gimbal_limit := gimbal_limit e;
                  direction := direction e |}
  | IsFuelTank tk =>
      IsFuelTank {| tank_base := translate_base (tank_base tk) offset;
                    fuel_capacity := fuel_capacity tk;
                    fuel_level := fuel_level tk |}
  | IsWing w =>
      IsWing {| wing_base := translate_base (wing_base w) offset;
                area := area w;
                lift_curve := lift_curve w;
                stall_angle := stall_angle w |}
  | IsHullSection h =>
      IsHullSection {| hull_base := translate_base (hull_base h) offset;
                       structural_integrity := structural_integrity h |}
  | IsCockpit c =>
      IsCockpit {| cockpit_base := translate_base (cockpit_base c) offset;
                   crew_capacity := crew_capacity c |}
  end.

(** ** world.py *)

(** The outcome of a dictionary search that may raise [KeyError]. *)
Inductive lookup (A : Type) : Type :=
| Found (a : A)
| KeyError.

Arguments Found {A} a.
Arguments KeyError {A}.

Definition lookup_bind {A B : Type} (m : lookup A) (k : A -> lookup B)
  : lookup B :=
  match m with
  | Found a => k a
  | KeyError => KeyError
  end.

(** The [inventory] dictionary, in insertion order: category, components. *)
Definition Inventory : Type := list (string * list AnyComponent).

(** [inventory.get(category, [])]. *)
Fixpoint inventory_get (inventory : Inventory) (category : string)
  : list AnyComponent :=
  match inventory with
  | [] => []
  | (key, comps) :: rest =>
      if String.eqb key category then comps else inventory_get rest category
  end.

(** The list held under [category] replaced by [comps]: what the in-place
    [options.pop(idx)] does to the dictionary. *)
Fixpoint inventory_set (inventory : Inventory) (category : string)
  (comps : list AnyComponent) : Inventory :=
  match inventory with
  | [] => []
  | (key, old) :: rest =>
      if String.eqb key category then (key, comps) :: rest
      else (key, old) :: inventory_set rest category comps
  end.

(** The loop of [take] over [enumerate(options)]: the first component of
    that name, and the list after [options.pop(idx)]. *)
Fixpoint pop_named (name : string) (options : list AnyComponent)
  : option (AnyComponent * list AnyComponent) :=
  match options with
  | [] => None
  | comp :: rest =>
      if String.eqb (Component.name (base comp)) name then Some (comp, rest)
      else
        match pop_named name rest with
        | Some (found, rest') => Some (found, comp :: rest')
        | None => None
        end
  end.

(** [SalvageField.take]: the component and the inventory as the call
    leaves it. *)
Definition take (inventory : Inventory) (category name : string)
  : lookup (AnyComponent * Inventory) :=
  let options := inventory_get inventory category in
  match pop_named name options with
  | Some (comp, options') =>
      Found (comp, inventory_set inventory category options')
  | None => KeyError
  end.

(** [SalvageField.list_components]. *)
Definition list_components (inventory : Inventory)
  : list (string * list string) :=
  map (fun entry =>
         (fst entry, map (fun comp => Component.name (base comp)) (snd entry)))
    inventory.

(** The inventory [__post_init__] installs when none is given. *)
Definition default_inventory : Inventory :=
  [ ("cockpit"%string,
     [ IsCockpit
         {| cockpit_base :=
              Component.Build "Survey Cockpit" 900 (-15 / 10, 0) (2, 18 / 10)
                (16 / 10) None;
            crew_capacity := 2 |} ]);
    ("hull"%string,
     [ IsHullSection
         {| hull_base :=
              Component.Build "Forward Hull" 500 (-1, 0) (25 / 10, 15 / 10) 1
                None;
            structural_integrity := 12 / 10 |};
       IsHullSection
         {| hull_base :=
              Component.Build "Aft Hull" 400 (1, 0) (25 / 10, 15 / 10) 1 None;
            structural_integrity := 12 / 10 |} ]);
    ("tank"%string,
     [ IsFuelTank
         {| tank_base :=
              Component.Build "Primary Tank" 350 (0, -5 / 10) (18 / 10, 12 / 10)
                (6 / 10) None;
            fuel_capacity := 400; fuel_level := 300 |};
       IsFuelTank
         {| tank_base :=
              Component.Build "Aux Tank" 200 (5 / 10, -5 / 10) (15 / 10, 1)
                (4 / 10) None;
            fuel_capacity := 150; fuel_level := 120 |} ]);
    ("engine"%string,
     [ IsEngine
         {| engine_base :=
              Component.Build "Twin Thruster" 220 (18 / 10, 0) (1, 8 / 10)
                (5 / 10) None;
            thrust := 32000; fuel_consumption := 8; gimbal_limit := 0;
            direction := (1, 0) |};
       IsEngine
         {| engine_base :=
              Component.Build "Vernier Thruster" 80 (0, -15 / 10)
                (5 / 10, 5 / 10) (2 / 10) None;
            thrust := 2000; fuel_consumption := 15 / 10; gimbal_limit := 0;
            direction := (0, 1) |} ]);
    ("wing"%string,
     [ IsWing
         {| wing_base :=
              Component.Build "Port Wing" 180 (-5 / 10, -25 / 10)
                (25 / 10, 3 / 10) (4 / 10) None;
            area := 85 / 10; lift_curve := 46 / 10; stall_angle := 14 |};
       IsWing
         {| wing_base :=
              Component.Build "Starboard Wing" 180 (-5 / 10, 25 / 10)
                (25 / 10, 3 / 10) (4 / 10) None;
            area := 85 / 10; lift_curve := 46 / 10; stall_angle := 14 |};
       IsWing
         {| wing_base :=
              Component.Build "Tail Plane" 90 (22 / 10, 0) (15 / 10, 2 / 10)
                (2 / 10) None;
            area := 3; lift_curve := 35 / 10; stall_angle := 12 |} ]) ].

(** [SalvageField.__post_init__]: an empty dictionary is replaced. *)
Definition SalvageField (inventory : Inventory) : Inventory :=
  match inventory with
  | [] => default_inventory
  | _ => inventory
  end.

(** One [ship.attach(self.take(category, name))]. *)
Definition take_and_attach (category name : string)
  (state : Spaceship.t * Inventory) : lookup (Spaceship.t * Inventory) :=
  let '(ship, inventory) := state in
  lookup_bind (take inventory category name)
    (fun taken => Found (attach ship (fst taken), snd taken)).

(** The ten parts [spawn_default_ship] asks for, in its order. *)
Definition default_parts : list (string * string) :=
  [ ("cockpit", "Survey Cockpit"); ("hull", "Forward Hull");
    ("hull", "Aft Hull"); ("tank", "Primary Tank"); ("tank", "Aux Tank");
    ("engine", "Twin Thruster"); ("engine", "Vernier Thruster");
    ("wing", "Port Wing"); ("wing", "Starboard Wing");
    ("wing", "Tail Plane") ]%string.

(** The takes of a parts list, one after the other. *)
Fixpoint take_all (parts : list (string * string))
  (state : Spaceship.t * Inventory) : lookup (Spaceship.t * Inventory) :=
  match parts with
  | [] => Found state
  | (category, name) :: rest =>
      lookup_bind (take_and_attach category name state) (take_all rest)
  end.

(** [SalvageField.spawn_default_ship]: the ship and the inventory left. *)
Definition spawn_default_ship (inventory : Inventory)
  : lookup (Spaceship.t * Inventory) :=
  take_all default_parts (Spaceship.new, inventory).

(** ** demo.py *)




(** One entry of the timeline of [run_simulation]. *)
Record TimelineEntry : Type := {
  entry_time : R;
  entry_position : Vector2;
  entry_velocity : Vector2;
  entry_speed : R;
  entry_altitude : R;
  entry_orientation : R
}.

(** The loop of [run_simulation] from the running [time]: the craft as the
    loop leaves it and the entries appended. *)
Fixpoint run_loop (ship : Spaceship.t) (duration dt : R)
  (throttle_profile : list R) (time : R)
  : result (Spaceship.t * list TimelineEntry) :=
  match throttle_profile with
  | [] => Ok (ship, [])
  | throttle :: rest =>
      ship <- simulate_step ship throttle dt None ;;
      let time := time + dt in
      let entry :=
        {| entry_time := time;
           entry_position := position ship;
           entry_velocity := velocity ship;
           entry_speed := length (velocity ship);
           entry_altitude := snd (position ship);
           entry_orientation := degrees (orientation ship) |} in
      if Rle_dec duration time then Ok (ship, [entry])
      else
        '(ship', entries) <- run_loop ship duration dt rest time ;;
        Ok (ship', entry :: entries)
  end.

Definition run_simulation (ship : Spaceship.t) (duration dt : R)
  (throttle_profile : list R) : result (Spaceship.t * list TimelineEntry) :=
  run_loop ship duration dt throttle_profile 0.

(** ** Vocabulary for the further properties *)

(** The value of [drain] when the drain loop leaves the given tanks. *)
Fixpoint drain_left (fuel_tanks : list FuelTank) (drain : R) : R :=
  match fuel_tanks with
  | [] => drain
  | tank :: rest =>
      if Rle_dec drain 0 then drain
      else drain_left rest (drain - py_min (fuel_level tank) drain)
  end.

(** Instances that [attach] stores in [components]: neither an engine, nor
    a fuel tank, nor a wing. *)
Definition generic (c : AnyComponent) : Prop :=
  match c with
  | IsEngine _ | IsFuelTank _ | IsWing _ => False
  | _ => True
  end.

(** The partition [attach] maintains. *)
Definition well_partitioned (s : Spaceship.t) : Prop :=
  Forall generic (components s).

(** ** Further example parts *)

(** An engine with thrust whose consumption rate is negative, and a tank
    whose level is negative. *)
Definition reverse_engine : Engine :=
  {| engine_base := part "engine" 1 (0, 0);
     thrust := 1; fuel_consumption := -1; gimbal_limit := 0;
     direction := (1, 0) |}.

Definition overdrawn_tank : FuelTank :=
  {| tank_base := part "tank" 1 (0, 0); fuel_capacity := 10; fuel_level := -5 |}.

(** ** The derived quantities as the specification words them *)








(** ** Tanks as shared objects, float operations as rounded *)

(** The tank objects by identity: a list of tanks is a list of identities,
    and one object can be listed more than once. *)
Definition TankStore : Type := nat -> FuelTank.

(** [tank.fuel_level = v] on the object [id]. *)
Definition store_level (st : TankStore) (id : nat) (v : R) : TankStore :=
  fun j => if Nat.eqb j id then set_fuel_level (st id) v else st j.

(** No rounding: arithmetic on real numbers. *)
Definition exact (x : R) : R := x.

Section Rounded.

(** The rounding applied to the result of one float operation. *)
Variable rnd : R -> R.

(** [sum(tank.fuel_level for tank in fuel_tanks)] over the listed objects. *)
Definition listed_fuel (refs : list nat) (st : TankStore) : R :=
  fold_left (fun acc id => rnd (acc + fuel_level (st id))) refs 0.

(** The drain loop of [compute_propulsion] on the listed objects. *)
Fixpoint drain_store (refs : list nat) (st : TankStore) (drain : R)
  : TankStore :=
  match refs with
  | [] => st
  | id :: rest =>
      if Rle_dec drain 0 then st
      else
        let taken := py_min (fuel_level (st id)) drain in
        drain_store rest
          (store_level st id (rnd (fuel_level (st id) - taken)))
          (rnd (drain - taken))
  end.

(** The fuel part of [compute_propulsion], lines 109 to 122, for a given
    [fuel_needed]: [fuel_used] and the objects afterwards. *)
Definition burn (refs : list nat) (st : TankStore) (fuel_needed : R)
  : R * TankStore :=
  let fuel_available := listed_fuel refs st in
  let fuel_used := py_min fuel_available fuel_needed in
  (fuel_used,
   if Rlt_dec 0 fuel_used then drain_store refs st fuel_used else st).

End Rounded.

(** Every tank object holds a representable level within its capacity. *)
Definition store_ok (rnd : R -> R) (st : TankStore) : Prop :=
  forall id, rnd (fuel_level (st id)) = fuel_level (st id)
             /\ tank_ok (st id).

(** A rounding with a gap: the numbers strictly between 4 and 5 are not
    representable and round down to 4; every other number is. *)
Definition coarse (x : R) : R :=
  if Rlt_dec 4 x then (if Rlt_dec x 5 then 4 else x) else x.

(** A store whose tank 0 holds 3 of 10 and whose other tanks hold 1.5. *)
Definition two_tank_store : TankStore :=
  fun id =>
    match id with
    | O => {| tank_base := part "tank" 1 (0, 0);
              fuel_capacity := 10; fuel_level := 3 |}
    | S _ => {| tank_base := part "tank" 1 (0, 0);
                fuel_capacity := 10; fuel_level := 3 / 2 |}
    end.

(** A store in which every identity is a tank holding 3 of 10. *)
Definition small_tank_store : TankStore :=
  fun _ => {| tank_base := part "tank" 1 (0, 0);
              fuel_capacity := 10; fuel_level := 3 |}.

(** * Basic facts *)

Ltac rcases :=
  repeat match goal with
    | |- context [Rlt_dec ?a ?b] => destruct (Rlt_dec a b)
    | |- context [Rle_dec ?a ?b] => destruct (Rle_dec a b)
    | |- context [Req_dec_T ?a ?b] => destruct (Req_dec_T a b)
    end.

Ltac tuple_eq :=
  repeat match goal with
    | |- (_, _) = (_, _) => apply f_equal2
    end.

Lemma fdiv_ok (a b : R) : b <> 0 -> fdiv a b = Ok (a / b).
Proof. intros Hb. unfold fdiv. destruct (Req_dec_T b 0); [contradiction | reflexivity]. Qed.

Lemma fdiv_zero (a : R) : fdiv a 0 = ZeroDivisionError.
Proof. unfold fdiv. destruct (Req_dec_T 0 0); [reflexivity | contradiction]. Qed.

Lemma py_min_Rmin (a b : R) : py_min a b = Rmin a b.
Proof. unfold py_min, Rmin. rcases; lra. Qed.

Lemma py_max_Rmax (a b : R) : py_max a b = Rmax a b.
Proof. unfold py_max, Rmax. rcases; lra. Qed.

Lemma clamped_range (throttle : R) : 0 <= clamped throttle <= 1.
Proof.
  unfold clamped, py_min. destruct (Rlt_dec throttle 1);
    unfold py_max; rcases; lra.
Qed.

Lemma clamped_high (throttle : R) : 1 <= throttle -> clamped throttle = 1.
Proof.
  intros H. unfold clamped, py_min. destruct (Rlt_dec throttle 1);
    unfold py_max; rcases; lra.
Qed.

Lemma clamped_low (throttle : R) : throttle <= 0 -> clamped throttle = 0.
Proof.
  intros H. unfold clamped, py_min. destruct (Rlt_dec throttle 1);
    unfold py_max; rcases; lra.
Qed.

Lemma clamped_inside (throttle : R) :
  0 <= throttle <= 1 -> clamped throttle = throttle.
Proof.
  intros H. unfold clamped, py_min. destruct (Rlt_dec throttle 1);
    unfold py_max; rcases; lra.
Qed.

Lemma clamped_idempotent (throttle : R) :
  clamped (clamped throttle) = clamped throttle.
Proof. apply clamped_inside, clamped_range. Qed.

Lemma fold_left_shift {A : Type} (f : A -> R) (l : list A) (a : R) :
  fold_left (fun acc x => acc + f x) l a = a + py_sum f l.
Proof.
  unfold py_sum. revert a.
  induction l as [|x l IH]; intros a; simpl.
  - lra.
  - rewrite IH, (IH (0 + f x)). lra.
Qed.

Lemma py_sum_nil {A : Type} (f : A -> R) : py_sum f [] = 0.
Proof. reflexivity. Qed.

Lemma py_sum_cons {A : Type} (f : A -> R) (x : A) (l : list A) :
  py_sum f (x :: l) = f x + py_sum f l.
Proof. unfold py_sum at 1. simpl. rewrite fold_left_shift. lra. Qed.

Lemma py_sum_app {A : Type} (f : A -> R) (l1 l2 : list A) :
  py_sum f (l1 ++ l2) = py_sum f l1 + py_sum f l2.
Proof.
  induction l1 as [|x l1 IH]; simpl.
  - rewrite py_sum_nil. lra.
  - rewrite !py_sum_cons, IH. lra.
Qed.

Lemma py_sum_map {A B : Type} (g : A -> B) (f : B -> R) (l : list A) :
  py_sum f (map g l) = py_sum (fun x => f (g x)) l.
Proof.
  induction l as [|x l IH]; simpl.
  - reflexivity.
  - rewrite !py_sum_cons, IH. reflexivity.
Qed.

Lemma py_sum_nonneg {A : Type} (f : A -> R) (l : list A) :
  Forall (fun x => 0 <= f x) l -> 0 <= py_sum f l.
Proof.
  induction 1 as [|x l Hx _ IH].
  - rewrite py_sum_nil. lra.
  - rewrite py_sum_cons. lra.
Qed.

(** ** The engine loop *)

Lemma accumulate_fuel (throttle orientation : R) (com : Vector2)
  (engines : list Engine) (acc : Vector2 * R * R) :
  snd (fold_left (engine_step throttle orientation com) engines acc)
  = snd acc + py_sum (fun e => fuel_consumption e * throttle) engines.
Proof.
  revert acc. induction engines as [|e engines IH]; intros [[F T] n]; simpl.
  - rewrite py_sum_nil. lra.
  - rewrite IH, py_sum_cons. simpl. lra.
Qed.

Lemma fuel_needed_sum (engines : list Engine) (throttle orientation : R)
  (com : Vector2) :
  fuel_needed engines throttle orientation com
  = py_sum (fun e => fuel_consumption e * clamped throttle) engines.
Proof.
  unfold fuel_needed, accumulate_engines. rewrite accumulate_fuel. simpl. lra.
Qed.

Lemma fuel_needed_nonneg (engines : list Engine) (throttle orientation : R)
  (com : Vector2) :
  Forall (fun e => 0 <= fuel_consumption e) engines ->
  0 <= fuel_needed engines throttle orientation com.
Proof.
  intros H. rewrite fuel_needed_sum. apply py_sum_nonneg.
  pose proof (clamped_range throttle) as Hc.
  induction H as [|e l He _ IH]; constructor; auto.
  apply Rmult_le_pos; lra.
Qed.

(** ** The drain loop *)

Lemma drain_tanks_stop (tanks : list FuelTank) (drain : R) :
  drain <= 0 -> drain_tanks tanks drain = tanks.
Proof.
  intros Hd. destruct tanks as [|tank rest]; simpl; [reflexivity|].
  destruct (Rle_dec drain 0); [reflexivity | contradiction].
Qed.

Lemma drain_tanks_sum (tanks : list FuelTank) :
  forall drain, 0 <= drain <= fuel_available tanks ->
    fuel_available tanks - fuel_available (drain_tanks tanks drain) = drain.
Proof.
  unfold fuel_available.
  induction tanks as [|tank rest IH]; intros drain Hd.
  - simpl. rewrite py_sum_nil in *. lra.
  - rewrite py_sum_cons in Hd. simpl.
    destruct (Rle_dec drain 0) as [Hle|Hgt].
    + rewrite py_sum_cons. lra.
    + rewrite !py_sum_cons. simpl. unfold py_min.
      destruct (Rlt_dec drain (fuel_level tank)) as [Hlt|Hge].
      * rewrite drain_tanks_stop by lra. lra.
      * specialize (IH (drain - fuel_level tank)).
        assert (0 <= drain - fuel_level tank <= py_sum fuel_level rest) as H by lra.
        apply IH in H. lra.
Qed.

Lemma drain_tanks_ok (tanks : list FuelTank) :
  forall drain, Forall tank_ok tanks -> Forall tank_ok (drain_tanks tanks drain).
Proof.
  induction tanks as [|tank rest IH]; intros drain Hok; simpl.
  - constructor.
  - destruct (Rle_dec drain 0) as [Hle|Hgt]; [exact Hok|].
    inversion Hok as [|? ? Ht Hrest]; subst.
    constructor.
    + unfold tank_ok in *. simpl. unfold py_min.
      destruct (Rlt_dec drain (fuel_level tank)); lra.
    + apply IH. exact Hrest.
Qed.

Lemma drain_tanks_frame (tanks : list FuelTank) :
  forall drain,
    map tank_base (drain_tanks tanks drain) = map tank_base tanks
    /\ map fuel_capacity (drain_tanks tanks drain) = map fuel_capacity tanks.
Proof.
  induction tanks as [|tank rest IH]; intros drain; simpl.
  - split; reflexivity.
  - destruct (Rle_dec drain 0); [split; reflexivity|].
    simpl. destruct (IH (drain - py_min (fuel_level tank) drain)) as [-> ->].
    split; reflexivity.
Qed.

(** ** [compute_propulsion] in closed form *)

Lemma compute_propulsion_eq (engines : list Engine) (tanks : list FuelTank)
  (throttle orientation : R) (com : Vector2) :
  compute_propulsion engines tanks throttle orientation com
  = Ok (propulsion_outcome engines tanks throttle orientation com).
Proof.
  unfold compute_propulsion, propulsion_outcome, fuel_needed, nominal_force,
    nominal_torque, fuel_available, clamped.
  destruct (accumulate_engines engines (py_max 0 (py_min 1 throttle))
              orientation com) as [[F T] needed].
  simpl.
  destruct (Rlt_dec 0 needed) as [Hpos|Hneg].
  - rewrite fdiv_ok by lra. simpl. reflexivity.
  - simpl. reflexivity.
Qed.

Lemma fuel_available_nonneg (tanks : list FuelTank) :
  Forall tank_ok tanks -> 0 <= fuel_available tanks.
Proof.
  intros H. apply py_sum_nonneg.
  induction H as [|tk l Ht _ IH]; constructor; auto.
  destruct Ht; assumption.
Qed.

Lemma propulsion_conserves (engines : list Engine) (tanks : list FuelTank)
  (throttle orientation : R) (com : Vector2) :
  let out := propulsion_outcome engines tanks throttle orientation com in
  fuel_available tanks - fuel_available (snd out) = py_max 0 (fuel_used (fst out)).
Proof.
  unfold propulsion_outcome. simpl.
  set (needed := fuel_needed engines throttle orientation com).
  set (used := py_min (fuel_available tanks) needed).
  assert (used <= fuel_available tanks) as Hle
    by (unfold used, py_min; rcases; lra).
  unfold py_max. destruct (Rlt_dec 0 used) as [Hpos|Hneg].
  - apply drain_tanks_sum. lra.
  - lra.
Qed.

(** * Fuel accounting of [compute_propulsion] *)

(** C1, as stated, fails: with a negative consumption rate the call reports
    [fuel_used = -1] and leaves the tank untouched, so the total level does
    not drop by the reported amount. *)
Lemma fuel_conservation_counterexample :
  exists r tanks',
    compute_propulsion [refuelling_engine] [half_tank] 1 0 (0, 0) = Ok (r, tanks')
    /\ fuel_used r = -1
    /\ tanks' = [half_tank]
    /\ fuel_available [half_tank] - fuel_available tanks' <> fuel_used r.
Proof.
  eexists. eexists. split; [apply compute_propulsion_eq|].
  assert (fuel_needed [refuelling_engine] 1 0 (0, 0) = -1) as Hn.
  { rewrite fuel_needed_sum, py_sum_cons, py_sum_nil, clamped_high by lra.
    simpl. lra. }
  assert (fuel_available [half_tank] = 5) as Ha.
  { unfold fuel_available. rewrite py_sum_cons, py_sum_nil. simpl. lra. }
  unfold propulsion_outcome. simpl. rewrite Hn, Ha.
  assert (py_min 5 (-1) = -1) as Hm by (unfold py_min; rcases; lra).
  rewrite Hm.
  destruct (Rlt_dec 0 (-1)) as [H|H]; [lra|].
  repeat split; try reflexivity. rewrite Ha. lra.
Qed.

(** *** The drain on shared objects *)

Lemma drain_store_untouched (rnd : R -> R) (refs : list nat) :
  forall (st : TankStore) (drain : R) (id : nat),
    ~ In id refs -> drain_store rnd refs st drain id = st id.
Proof.
  induction refs as [|r rest IH]; intros st drain id Hid; cbn [drain_store].
  - reflexivity.
  - destruct (Rle_dec drain 0); [reflexivity|].
    rewrite IH by (intros H; apply Hid; right; exact H).
    unfold store_level.
    destruct (Nat.eqb id r) eqn:Heq; [|reflexivity].
    apply Nat.eqb_eq in Heq. exfalso. apply Hid. left. symmetry. exact Heq.
Qed.

Lemma drain_store_ext (rnd : R -> R) (refs : list nat) :
  forall (st1 st2 : TankStore) (drain : R),
    (forall id, In id refs -> st1 id = st2 id) ->
    map (drain_store rnd refs st1 drain) refs
    = map (drain_store rnd refs st2 drain) refs.
Proof.
  intros st1 st2 drain Hagree.
  assert (forall id, In id refs ->
            drain_store rnd refs st1 drain id
            = drain_store rnd refs st2 drain id) as Hall.
  { revert st1 st2 drain Hagree.
    induction refs as [|r rest IH]; intros st1 st2 drain Hagree id Hid.
    - contradiction.
    - cbn [drain_store].
      destruct (Rle_dec drain 0); [apply Hagree, Hid|].
      rewrite (Hagree r) by (left; reflexivity).
      destruct (in_dec Nat.eq_dec id rest) as [Hin|Hout].
      + apply IH; [|exact Hin].
        intros j Hj. unfold store_level.
        rewrite (Hagree r) by (left; reflexivity).
        destruct (Nat.eqb j r); [reflexivity|].
        apply Hagree. right. exact Hj.
      + rewrite !drain_store_untouched by exact Hout.
        unfold store_level. rewrite (Hagree r) by (left; reflexivity).
        destruct (Nat.eqb id r); [reflexivity|]. apply Hagree, Hid. }
  apply map_ext_in. exact Hall.
Qed.

Lemma drain_store_exact (refs : list nat) :
  NoDup refs ->
  forall (st : TankStore) (drain : R),
    map (drain_store exact refs st drain) refs
    = drain_tanks (map st refs) drain.
Proof.
  induction 1 as [|r rest Hr _ IH]; intros st drain; [reflexivity|].
  cbn [drain_store map drain_tanks].
  destruct (Rle_dec drain 0); [reflexivity|].
  unfold exact at 1 2.
  rewrite drain_store_untouched by exact Hr.
  f_equal.
  - unfold store_level. rewrite Nat.eqb_refl. reflexivity.
  - rewrite <- IH. apply drain_store_ext.
    intros id Hid. unfold store_level.
    destruct (Nat.eqb id r) eqn:Heq; [|reflexivity].
    apply Nat.eqb_eq in Heq. subst id. contradiction.
Qed.

Lemma listed_fuel_exact (refs : list nat) (st : TankStore) :
  listed_fuel exact refs st = fuel_available (map st refs).
Proof.
  unfold fuel_available. rewrite py_sum_map. reflexivity.
Qed.

Section Rounding.

Variable rnd : R -> R.
Hypothesis rnd_monotone : forall x y, x <= y -> rnd x <= rnd y.
Hypothesis rnd_zero : rnd 0 = 0.
Hypothesis rnd_idempotent : forall x, rnd (rnd x) = rnd x.

Lemma drain_store_ok (refs : list nat) :
  forall (st : TankStore) (drain : R),
    store_ok rnd st ->
    store_ok rnd (drain_store rnd refs st drain)
    /\ forall id,
         fuel_level (drain_store rnd refs st drain id) <= fuel_level (st id)
         /\ fuel_capacity (drain_store rnd refs st drain id)
            = fuel_capacity (st id)
         /\ tank_base (drain_store rnd refs st drain id) = tank_base (st id).
Proof.
  induction refs as [|r rest IH]; intros st drain Hok; cbn [drain_store].
  - split; [exact Hok|]. intros id. repeat split; lra.
  - destruct (Rle_dec drain 0) as [Hle|Hgt];
      [split; [exact Hok|]; intros id; repeat split; lra|].
    set (level := fuel_level (st r)).
    set (level' := rnd (level - py_min level drain)).
    destruct (Hok r) as [Hrep [Hlo Hhi]]. fold level in Hrep, Hlo, Hhi.
    assert (0 <= level' <= level) as Hnew.
    { unfold level', py_min.
      destruct (Rlt_dec drain level) as [Hlt|Hge].
      - split.
        + rewrite <- rnd_zero. apply rnd_monotone. lra.
        + rewrite <- Hrep. apply rnd_monotone. lra.
      - replace (level - level) with 0 by ring. rewrite rnd_zero. lra. }
    assert (store_ok rnd (store_level st r level')) as Hok'.
    { intros id. unfold store_level.
      destruct (Nat.eqb id r); [|apply Hok].
      unfold tank_ok. cbn [set_fuel_level fuel_level fuel_capacity].
      split; [apply rnd_idempotent | lra]. }
    destruct (IH (store_level st r level')
                (rnd (drain - py_min level drain)) Hok') as [Hok'' Hle].
    split; [exact Hok''|].
    assert (forall id,
              fuel_level (store_level st r level' id) <= fuel_level (st id)
              /\ fuel_capacity (store_level st r level' id)
                 = fuel_capacity (st id)
              /\ tank_base (store_level st r level' id) = tank_base (st id))
      as Hset.
    { intros id. unfold store_level.
      destruct (Nat.eqb id r) eqn:Heq.
      - apply Nat.eqb_eq in Heq. subst id.
        cbn [set_fuel_level fuel_level fuel_capacity tank_base].
        fold level. repeat split. lra.
      - repeat split. lra. }
    intros id. destruct (Hle id) as (H1 & H2 & H3).
    destruct (Hset id) as (G1 & G2 & G3).
    repeat split; [lra | congruence | congruence].
Qed.

End Rounding.

Lemma exact_is_rounding :
  (forall x y, x <= y -> exact x <= exact y)
  /\ exact 0 = 0
  /\ (forall x, exact (exact x) = exact x).
Proof. unfold exact. repeat split; auto. Qed.

Lemma small_tank_store_ok : store_ok exact small_tank_store.
Proof. intros id. split; [reflexivity|]. unfold tank_ok. simpl. lra. Qed.

Lemma listed_twice :
  fst (burn exact [0%nat; 0%nat] small_tank_store 3) = 3
  /\ listed_fuel exact [0%nat; 0%nat] small_tank_store
     - listed_fuel exact [0%nat; 0%nat]
         (snd (burn exact [0%nat; 0%nat] small_tank_store 3))
     = 6.
Proof.
  assert (listed_fuel exact [0%nat; 0%nat] small_tank_store = 6) as Hsum
      by (unfold listed_fuel, exact; simpl; lra).
  unfold burn. rewrite Hsum.
  assert (py_min 6 3 = 3) as -> by (unfold py_min; rcases; lra).
  cbn [fst snd]. split; [reflexivity|].
  destruct (Rlt_dec 0 3) as [_|H]; [|lra].
  cbn [drain_store].
  destruct (Rle_dec 3 0) as [H|_]; [lra|].
  cbn [small_tank_store fuel_level].
  assert (py_min 3 3 = 3) as -> by (unfold py_min; rcases; lra).
  unfold exact at 2 3.
  replace (3 - 3) with 0 by ring.
  destruct (Rle_dec 0 0) as [_|H]; [|lra].
  unfold listed_fuel, exact, store_level. simpl. lra.
Qed.

Lemma coarse_exact (x : R) : x <= 4 \/ 5 <= x -> coarse x = x.
Proof. intros H. unfold coarse. rcases; lra. Qed.

Lemma coarse_gap (x : R) : 4 < x < 5 -> coarse x = 4.
Proof. intros H. unfold coarse. rcases; lra. Qed.

Lemma coarse_is_rounding :
  (forall x y, x <= y -> coarse x <= coarse y)
  /\ coarse 0 = 0
  /\ (forall x, coarse (coarse x) = coarse x).
Proof.
  split; [|split].
  - intros x y H. unfold coarse. rcases; lra.
  - apply coarse_exact. lra.
  - intros x. destruct (Rlt_dec 4 x) as [H4|H4].
    + destruct (Rlt_dec x 5) as [H5|H5].
      * rewrite (coarse_gap x) by lra. apply coarse_exact. lra.
      * rewrite (coarse_exact x) by lra. apply coarse_exact. lra.
    + rewrite (coarse_exact x) by lra. apply coarse_exact. lra.
Qed.

Lemma two_tank_store_ok : store_ok coarse two_tank_store.
Proof.
  intros [|id]; (split; [apply coarse_exact; simpl; lra|]);
    unfold tank_ok; simpl; lra.
Qed.

(** With tanks at 3 and 1.5 the total 4.5 is computed as 4; asked for 10,
    the call reports 4 as used and leaves 0.5 in the second tank. *)
Lemma rounded_sum_drifts :
  fst (burn coarse [0%nat; 1%nat] two_tank_store 10) = 4
  /\ listed_fuel coarse [0%nat; 1%nat] two_tank_store = 4
  /\ listed_fuel coarse [0%nat; 1%nat]
       (snd (burn coarse [0%nat; 1%nat] two_tank_store 10)) = 1 / 2.
Proof.
  assert (listed_fuel coarse [0%nat; 1%nat] two_tank_store = 4) as Hsum.
  { unfold listed_fuel. cbn [fold_left two_tank_store fuel_level].
    rewrite (coarse_exact (0 + 3)) by lra. apply coarse_gap. lra. }
  unfold burn. rewrite Hsum.
  assert (py_min 4 10 = 4) as -> by (unfold py_min; rcases; lra).
  cbn [fst snd]. split; [reflexivity|]. split; [reflexivity|].
  destruct (Rlt_dec 0 4) as [_|H]; [|lra].
  cbn [drain_store].
  destruct (Rle_dec 4 0) as [H|_]; [lra|].
  cbn [two_tank_store fuel_level].
  assert (py_min 3 4 = 3) as -> by (unfold py_min; rcases; lra).
  rewrite (coarse_exact (3 - 3)), (coarse_exact (4 - 3)) by lra.
  destruct (Rle_dec (4 - 3) 0) as [H|_]; [lra|].
  unfold listed_fuel, store_level.
  cbn [fold_left Nat.eqb two_tank_store set_fuel_level fuel_level].
  assert (py_min (3 / 2) (4 - 3) = 1) as -> by (unfold py_min; rcases; lra).
  rewrite (coarse_exact (3 / 2 - 1)) by lra.
  rewrite (coarse_exact (0 + (3 - 3))) by lra.
  rewrite coarse_exact by lra. lra.
Qed.

(** C1 (amended).  In exact arithmetic, for a list that holds each tank
    once: every call returns normally; whenever the [fuel_used] it reports
    is not negative, the total fuel level drops by exactly that amount; this
    is the case when no engine has a negative consumption rate and the tanks
    satisfy their invariant; and the invariant
    [0 <= fuel_level <= fuel_capacity] is preserved by the call.  The list
    of values is the list of the states of distinct tank objects.  On tank
    objects, also when one is listed more than once, and under any monotone
    rounding of the float operations, the fuel part of the call keeps every
    level representable and within [0, capacity], raises no level, changes
    no capacity, and changes nothing when [fuel_used] is not positive.  With
    one tank of level 3 listed twice and 3 units required, the listed total
    drops by 6.  Under a rounding that cannot represent the total 4.5 of two
    tanks at 3 and 1.5, the computed total is 4 before and 0.5 after a call
    that reports 4 as used. *)
Theorem fuel_conservation :
  (forall (engines : list Engine) (tanks : list FuelTank)
          (throttle orientation : R) (com : Vector2),
    exists r tanks',
      compute_propulsion engines tanks throttle orientation com = Ok (r, tanks')
      /\ (0 <= fuel_used r ->
          fuel_available tanks - fuel_available tanks' = fuel_used r)
      /\ (Forall (fun e => 0 <= fuel_consumption e) engines ->
          Forall tank_ok tanks -> 0 <= fuel_used r)
      /\ (Forall tank_ok tanks -> Forall tank_ok tanks'))
  /\ (forall (engines : list Engine) (refs : list nat) (st : TankStore)
             (throttle orientation : R) (com : Vector2),
        NoDup refs ->
        exists r,
          compute_propulsion engines (map st refs) throttle orientation com
          = Ok (r, map (snd (burn exact refs st
                               (fuel_needed engines throttle orientation com)))
                     refs)
          /\ fuel_used r
             = fst (burn exact refs st
                      (fuel_needed engines throttle orientation com)))
  /\ (forall (rnd : R -> R) (refs : list nat) (st : TankStore)
             (fuel_needed : R),
        (forall x y, x <= y -> rnd x <= rnd y) ->
        rnd 0 = 0 ->
        (forall x, rnd (rnd x) = rnd x) ->
        store_ok rnd st ->
        store_ok rnd (snd (burn rnd refs st fuel_needed))
        /\ (forall id,
              fuel_level (snd (burn rnd refs st fuel_needed) id)
              <= fuel_level (st id)
              /\ fuel_capacity (snd (burn rnd refs st fuel_needed) id)
                 = fuel_capacity (st id))
        /\ (fst (burn rnd refs st fuel_needed) <= 0 ->
            snd (burn rnd refs st fuel_needed) = st))
  /\ (fst (burn exact [0%nat; 0%nat] small_tank_store 3) = 3
      /\ listed_fuel exact [0%nat; 0%nat] small_tank_store
         - listed_fuel exact [0%nat; 0%nat]
             (snd (burn exact [0%nat; 0%nat] small_tank_store 3))
         = 6)
  /\ ((forall x y, x <= y -> coarse x <= coarse y)
      /\ coarse 0 = 0
      /\ (forall x, coarse (coarse x) = coarse x)
      /\ store_ok coarse two_tank_store
      /\ fst (burn coarse [0%nat; 1%nat] two_tank_store 10) = 4
      /\ listed_fuel coarse [0%nat; 1%nat] two_tank_store = 4
      /\ listed_fuel coarse [0%nat; 1%nat]
           (snd (burn coarse [0%nat; 1%nat] two_tank_store 10)) = 1 / 2).
Proof.
  split; [|split; [|split; [|split; [exact listed_twice|]]]];
    [| | |destruct coarse_is_rounding as (Hmono & Hzero & Hidem);
          destruct rounded_sum_drifts as (Hused & Hbefore & Hafter);
          repeat (split; [assumption || exact two_tank_store_ok|]);
          exact Hafter].
  - intros engines tanks throttle orientation com.
    exists (fst (propulsion_outcome engines tanks throttle orientation com)),
           (snd (propulsion_outcome engines tanks throttle orientation com)).
    split; [rewrite compute_propulsion_eq, <- surjective_pairing; reflexivity|].
    split; [|split].
    + intros Hused. rewrite propulsion_conserves.
      unfold py_max. rcases; lra.
    + intros He Ht. unfold propulsion_outcome. simpl.
      pose proof (fuel_needed_nonneg engines throttle orientation com He).
      pose proof (fuel_available_nonneg tanks Ht).
      unfold py_min. rcases; lra.
    + intros Ht. unfold propulsion_outcome. simpl.
      destruct (Rlt_dec 0 _); [apply drain_tanks_ok|]; exact Ht.
  - intros engines refs st throttle orientation com Hdup.
    rewrite compute_propulsion_eq.
    exists (fst (propulsion_outcome engines (map st refs)
                   throttle orientation com)).
    unfold propulsion_outcome, burn. rewrite listed_fuel_exact.
    cbn [fst snd fuel_used]. split; [|reflexivity]. f_equal. f_equal.
    destruct (Rlt_dec 0 _); [|reflexivity].
    symmetry. apply drain_store_exact, Hdup.
  - intros rnd refs st needed Hmono Hzero Hidem Hok.
    unfold burn. cbn [fst snd].
    destruct (Rlt_dec 0 (py_min (listed_fuel rnd refs st) needed)) as [Hpos|Hneg].
    + destruct (drain_store_ok rnd Hmono Hzero Hidem refs st
                  (py_min (listed_fuel rnd refs st) needed) Hok) as [Hok' Hle].
      split; [exact Hok'|]. split.
      * intros id. destruct (Hle id) as (H1 & H2 & _). split; assumption.
      * intros H. lra.
    + split; [exact Hok|]. split; [intros id; split; [lra | reflexivity]|].
      intros _. reflexivity.
Qed.

Lemma half_tank_ok : Forall tank_ok [half_tank].
Proof. constructor; [|constructor]. unfold tank_ok. simpl. lra. Defined.

Lemma thirsty_engine_ok : Forall (fun e => 0 <= fuel_consumption e) [thirsty_engine].
Proof. constructor; [|constructor]. simpl. lra. Defined.

Lemma fuel_conservation_witness :
  (exists r tanks',
      compute_propulsion [thirsty_engine] [half_tank] 1 0 (0, 0) = Ok (r, tanks')
      /\ fuel_available [half_tank] - fuel_available tanks' = fuel_used r
      /\ Forall tank_ok tanks')
  /\ store_ok exact (snd (burn exact [0%nat; 0%nat] small_tank_store 3)).
Proof.
  destruct fuel_conservation as (Hvalues & _ & Hstore & _ & _).
  split.
  - destruct (Hvalues [thirsty_engine] [half_tank] 1 0 (0, 0))
      as (r & tanks' & Hrun & Hsum & Hpos & Hok).
    exists r, tanks'. split; [exact Hrun|]. split.
    + apply Hsum. apply Hpos; [exact thirsty_engine_ok | exact half_tank_ok].
    + apply Hok. exact half_tank_ok.
  - destruct exact_is_rounding as (Hmono & Hzero & Hidem).
    apply (Hstore exact [0%nat; 0%nat] small_tank_store 3 Hmono Hzero Hidem).
    exact small_tank_store_ok.
Defined.

(** * Fuel starvation *)

Lemma nominal_single (e : Engine) (throttle orientation : R) (com : Vector2) :
  nominal_force [e] throttle orientation com
  = add (0, 0) (mul (rotate (direction e) orientation)
                  (thrust e * clamped throttle))
  /\ nominal_torque [e] throttle orientation com
     = 0 + cross_z (sub (Component.position (engine_base e)) com)
             (mul (rotate (direction e) orientation)
                (thrust e * clamped throttle)).
Proof. split; reflexivity. Qed.

(** C2, as stated, fails: with a negative consumption rate and a negative
    tank level the fuel required, -1, exceeds the fuel available, -5, and
    the guard [fuel_needed > 0] skips the scaling: the force returned is the
    nominal one, not the nominal one scaled by available/required = 5. *)
Lemma starvation_derates_uniformly_counterexample :
  exists r tanks',
    compute_propulsion [reverse_engine] [overdrawn_tank] 1 0 (0, 0)
    = Ok (r, tanks')
    /\ fuel_available [overdrawn_tank]
       < fuel_needed [reverse_engine] 1 0 (0, 0)
    /\ force r = nominal_force [reverse_engine] 1 0 (0, 0)
    /\ force r
       <> mul (nominal_force [reverse_engine] 1 0 (0, 0))
            (fuel_available [overdrawn_tank]
             / fuel_needed [reverse_engine] 1 0 (0, 0)).
Proof.
  assert (fuel_needed [reverse_engine] 1 0 (0, 0) = -1) as Hn.
  { rewrite fuel_needed_sum, py_sum_cons, py_sum_nil, clamped_high by lra.
    simpl. lra. }
  assert (fuel_available [overdrawn_tank] = -5) as Ha.
  { unfold fuel_available. rewrite py_sum_cons, py_sum_nil. simpl. lra. }
  assert (nominal_force [reverse_engine] 1 0 (0, 0) = (1, 0)) as Hf.
  { destruct (nominal_single reverse_engine 1 0 (0, 0)) as [-> _].
    rewrite clamped_high by lra.
    unfold add, mul, rotate. cbn [fst snd direction thrust reverse_engine].
    rewrite cos_0, sin_0. tuple_eq; ring. }
  eexists. eexists. split; [apply compute_propulsion_eq|].
  unfold propulsion_outcome. cbn [fst snd force].
  rewrite Hn, Ha, Hf.
  destruct (Rlt_dec 0 (-1)) as [H|_]; [lra|].
  split; [lra|]. split; [reflexivity|].
  unfold mul. cbn [fst snd]. intros H. injection H as H _. lra.
Qed.

(** C2 (amended): when the fuel required is positive and exceeds the fuel
    available, force and torque are the nominal accumulated values scaled by
    available/required and [fuel_used] is the available fuel.  For one
    engine consuming 10 and one tank holding 5, at throttle 1:
    [fuel_used = 5], force and torque are half the nominal ones, and the
    tank ends at level 0. *)
Theorem starvation_derates_uniformly :
  (forall (engines : list Engine) (tanks : list FuelTank)
          (throttle orientation : R) (com : Vector2),
      0 < fuel_needed engines throttle orientation com ->
      fuel_available tanks < fuel_needed engines throttle orientation com ->
      exists r tanks',
        compute_propulsion engines tanks throttle orientation com = Ok (r, tanks')
        /\ force r
           = mul (nominal_force engines throttle orientation com)
               (fuel_available tanks
                / fuel_needed engines throttle orientation com)
        /\ torque r
           = nominal_torque engines throttle orientation com
             * (fuel_available tanks
                / fuel_needed engines throttle orientation com)
        /\ fuel_used r = fuel_available tanks)
  /\ (forall (e : Engine) (tank : FuelTank) (orientation : R) (com : Vector2),
        fuel_consumption e = 10 ->
        fuel_level tank = 5 ->
        exists r tank',
          compute_propulsion [e] [tank] 1 orientation com = Ok (r, [tank'])
          /\ fuel_used r = 5
          /\ force r = mul (nominal_force [e] 1 orientation com) (1 / 2)
          /\ torque r = nominal_torque [e] 1 orientation com * (1 / 2)
          /\ nominal_force [e] 1 orientation com
             = mul (rotate (direction e) orientation) (thrust e)
          /\ fuel_level tank' = 0
          /\ tank_base tank' = tank_base tank
          /\ fuel_capacity tank' = fuel_capacity tank).
Proof.
  split.
  - intros engines tanks throttle orientation com Hpos Hlt.
    exists (fst (propulsion_outcome engines tanks throttle orientation com)),
           (snd (propulsion_outcome engines tanks throttle orientation com)).
    split; [rewrite compute_propulsion_eq, <- surjective_pairing; reflexivity|].
    unfold propulsion_outcome. simpl.
    assert (py_min (fuel_available tanks)
              (fuel_needed engines throttle orientation com)
            = fuel_available tanks) as ->
        by (unfold py_min; rcases; lra).
    destruct (Rlt_dec 0 (fuel_needed engines throttle orientation com));
      [|lra].
    repeat split; reflexivity.
  - intros e tank orientation com He Ht.
    assert (fuel_needed [e] 1 orientation com = 10) as Hn.
    { rewrite fuel_needed_sum, py_sum_cons, py_sum_nil, clamped_high by lra.
      rewrite He. lra. }
    assert (fuel_available [tank] = 5) as Ha.
    { unfold fuel_available. rewrite py_sum_cons, py_sum_nil, Ht. lra. }
    exists (fst (propulsion_outcome [e] [tank] 1 orientation com)),
           (set_fuel_level tank 0).
    split.
    + rewrite compute_propulsion_eq. f_equal.
      unfold propulsion_outcome. rewrite Hn, Ha.
      assert (py_min 5 10 = 5) as -> by (unfold py_min; rcases; lra).
      simpl. destruct (Rlt_dec 0 5); [|lra].
      destruct (Rle_dec 5 0); [lra|].
      rewrite Ht.
      assert (py_min 5 5 = 5) as -> by (unfold py_min; rcases; lra).
      replace (5 - 5) with 0 by lra. reflexivity.
    + unfold propulsion_outcome. rewrite Hn, Ha.
      assert (py_min 5 10 = 5) as -> by (unfold py_min; rcases; lra).
      simpl. destruct (Rlt_dec 0 10); [|lra].
      replace (5 / 10) with (1 / 2) by lra.
      repeat split; try reflexivity.
      destruct (nominal_single e 1 orientation com) as [-> _].
      rewrite clamped_high by lra.
      unfold add, mul. simpl. f_equal; lra.
Qed.

Lemma starvation_derates_uniformly_witness :
  (exists r tanks',
      compute_propulsion [thirsty_engine] [half_tank] 1 0 (0, 0) = Ok (r, tanks')
      /\ fuel_used r = fuel_available [half_tank])
  /\ (exists r tank',
        compute_propulsion [thirsty_engine] [half_tank] 1 0 (0, 0)
        = Ok (r, [tank'])
        /\ fuel_used r = 5
        /\ fuel_level tank' = 0).
Proof.
  assert (fuel_needed [thirsty_engine] 1 0 (0, 0) = 10) as Hn.
  { rewrite fuel_needed_sum, !py_sum_cons, !py_sum_nil, clamped_high by lra.
    simpl. lra. }
  assert (fuel_available [half_tank] = 5) as Ha.
  { unfold fuel_available. rewrite !py_sum_cons, !py_sum_nil. simpl. lra. }
  split.
  - destruct (proj1 starvation_derates_uniformly [thirsty_engine] [half_tank]
                1 0 (0, 0))
      as (r & tanks' & Hrun & _ & _ & Hused).
    + rewrite Hn. lra.
    + rewrite Hn, Ha. lra.
    + exists r, tanks'. split; assumption.
  - destruct (proj2 starvation_derates_uniformly thirsty_engine half_tank
                0 (0, 0) eq_refl eq_refl)
      as (r & tank' & Hrun & Hused & _ & _ & _ & Hlevel & _).
    exists r, tank'. repeat split; assumption.
Defined.

(** * The flight model never divides by zero *)

Lemma hypot_zero : hypot 0 0 = 0.
Proof. unfold hypot. replace (0 * 0 + 0 * 0) with 0 by lra. apply sqrt_0. Qed.

Lemma length_zero : length (0, 0) = 0.
Proof. unfold length. simpl. apply hypot_zero. Qed.

Lemma rotate_zero (angle : R) : rotate (0, 0) angle = (0, 0).
Proof. unfold rotate. simpl. f_equal; lra. Qed.

Lemma point_velocity_rest (pos com : Vector2) :
  point_velocity (0, 0) 0 pos com = (0, 0).
Proof. unfold point_velocity, add. simpl. f_equal; lra. Qed.

Lemma normalize_total (v : Vector2) : exists n, normalize v = Ok n.
Proof.
  unfold normalize. destruct (Req_dec_T (length v) 0) as [Hz|Hnz].
  - eexists; reflexivity.
  - rewrite !fdiv_ok by exact Hnz. simpl. eexists; reflexivity.
Qed.

Lemma normalize_zero : normalize (0, 0) = Ok (0, 0).
Proof.
  unfold normalize. rewrite length_zero.
  destruct (Req_dec_T 0 0); [reflexivity | contradiction].
Qed.

Lemma aerodynamic_drag_total (velocity : Vector2) (reference_area cd : R) :
  exists d, aerodynamic_drag velocity reference_area cd = Ok d.
Proof.
  unfold aerodynamic_drag.
  destruct (Req_dec_T (length velocity) 0).
  - eexists; reflexivity.
  - destruct (normalize_total (mul velocity (-1))) as [unit_vector ->].
    simpl. eexists; reflexivity.
Qed.

Lemma aerodynamic_drag_rest (reference_area cd : R) :
  aerodynamic_drag (0, 0) reference_area cd = Ok (0, 0).
Proof.
  unfold aerodynamic_drag. rewrite length_zero.
  destruct (Req_dec_T 0 0); [reflexivity | contradiction].
Qed.

Lemma aerodynamic_lift_rest (wing : Wing) : aerodynamic_lift wing (0, 0) = (0, 0).
Proof.
  unfold aerodynamic_lift. rewrite length_zero.
  destruct (Req_dec_T 0 0); [reflexivity | contradiction].
Qed.

Lemma drag_loop_total (velocity : Vector2) (angular_velocity orientation : R)
  (com : Vector2) (components : list AnyComponent) :
  forall acc, exists acc',
    for_each (drag_step velocity angular_velocity orientation com) components acc
    = Ok acc'.
Proof.
  induction components as [|comp rest IH]; intros [F T]; simpl.
  - eexists; reflexivity.
  - destruct (aerodynamic_drag_total
                (rotate (point_velocity velocity angular_velocity
                           (Component.position (base comp)) com) (- orientation))
                (Component.drag_area (base comp)) DRAG_COEFFICIENT) as [d ->].
    simpl. apply IH.
Qed.

Lemma lift_loop_total (velocity : Vector2) (angular_velocity orientation : R)
  (com : Vector2) (wings : list Wing) :
  forall acc, exists acc',
    for_each (lift_step velocity angular_velocity orientation com) wings acc
    = Ok acc'.
Proof.
  induction wings as [|wing rest IH]; intros [F T]; simpl.
  - eexists; reflexivity.
  - apply IH.
Qed.

Lemma compute_aero_forces_total (components : list AnyComponent)
  (wings : list Wing) (velocity : Vector2) (angular_velocity orientation : R)
  (com : Vector2) :
  exists aero,
    compute_aero_forces components wings velocity angular_velocity
      orientation com = Ok aero.
Proof.
  unfold compute_aero_forces.
  destruct (drag_loop_total velocity angular_velocity orientation com
              components ((0, 0), 0)) as [acc ->].
  simpl.
  destruct (lift_loop_total velocity angular_velocity orientation com
              wings acc) as [acc' ->].
  simpl. eexists; reflexivity.
Qed.

Section AtRest.

Variables (orientation : R) (com : Vector2).

Lemma drag_loop_rest (components : list AnyComponent) :
  for_each (drag_step (0, 0) 0 orientation com) components ((0, 0), 0)
  = Ok ((0, 0), 0).
Proof.
  induction components as [|comp rest IH]; simpl.
  - reflexivity.
  - rewrite point_velocity_rest, rotate_zero, aerodynamic_drag_rest. simpl.
    rewrite rotate_zero.
    replace (add (0, 0) (0, 0)) with ((0, 0) : Vector2)
      by (unfold add; simpl; f_equal; lra).
    replace (0 + cross_z _ (0, 0)) with 0 by (unfold cross_z; simpl; lra).
    exact IH.
Qed.

Lemma lift_loop_rest (wings : list Wing) :
  for_each (lift_step (0, 0) 0 orientation com) wings ((0, 0), 0)
  = Ok ((0, 0), 0).
Proof.
  induction wings as [|wing rest IH]; simpl.
  - reflexivity.
  - rewrite point_velocity_rest, rotate_zero, aerodynamic_lift_rest, rotate_zero.
    replace (add (0, 0) (0, 0)) with ((0, 0) : Vector2)
      by (unfold add; simpl; f_equal; lra).
    replace (0 + cross_z _ (0, 0)) with 0 by (unfold cross_z; simpl; lra).
    exact IH.
Qed.

Lemma compute_aero_forces_rest (components : list AnyComponent)
  (wings : list Wing) :
  compute_aero_forces components wings (0, 0) 0 orientation com
  = Ok {| linear := (0, 0); aero_torque := 0 |}.
Proof.
  unfold compute_aero_forces.
  rewrite drag_loop_rest. simpl. rewrite lift_loop_rest. reflexivity.
Qed.

End AtRest.

(** * The integrator *)

Lemma integrate_eq (position velocity : Vector2)
  (orientation angular_velocity : R) (force : Vector2)
  (torque mass inertia dt : R) :
  integrate position velocity orientation angular_velocity force torque mass
    inertia dt
  = Ok (semi_implicit_euler position velocity orientation angular_velocity
          force torque mass inertia dt).
Proof.
  unfold integrate, semi_implicit_euler.
  destruct (Rlt_dec 0 mass) as [Hm|Hm];
    destruct (Rlt_dec 0 inertia) as [Hi|Hi];
    rewrite ?fdiv_ok by lra; simpl;
    unfold add, mul; simpl;
    apply f_equal; tuple_eq; unfold Rdiv; ring.
Qed.

(** * The craft *)

Lemma mass_as_bases (s : Spaceship.t) :
  mass s = py_sum Component.mass (map base (all_components s)).
Proof. unfold mass. rewrite py_sum_map. reflexivity. Qed.

Lemma center_of_mass_total (s : Spaceship.t) :
  exists com, center_of_mass s = Ok com.
Proof.
  unfold center_of_mass. destruct (Req_dec_T (mass s) 0) as [Hz|Hnz].
  - eexists; reflexivity.
  - rewrite !fdiv_ok by exact Hnz. simpl. eexists; reflexivity.
Qed.

Lemma moment_of_inertia_total (s : Spaceship.t) :
  exists inertia, moment_of_inertia s = Ok inertia.
Proof.
  unfold moment_of_inertia.
  destruct (center_of_mass_total s) as [com ->]. simpl.
  eexists; reflexivity.
Qed.

Lemma bases_with_fuel_tanks (s : Spaceship.t) (tanks : list FuelTank) :
  map tank_base tanks = map tank_base (fuel_tanks s) ->
  map base (all_components (with_fuel_tanks s tanks))
  = map base (all_components s).
Proof.
  intros H. unfold all_components, with_fuel_tanks. simpl.
  rewrite !map_app, !map_map. simpl.
  change (map (fun x => tank_base x) tanks) with (map tank_base tanks).
  rewrite H. reflexivity.
Qed.

Lemma mass_bases (s1 s2 : Spaceship.t) :
  map base (all_components s1) = map base (all_components s2) ->
  mass s1 = mass s2.
Proof. intros H. rewrite !mass_as_bases, H. reflexivity. Qed.

Lemma center_of_mass_bases (s1 s2 : Spaceship.t) :
  map base (all_components s1) = map base (all_components s2) ->
  center_of_mass s1 = center_of_mass s2.
Proof.
  intros H. unfold center_of_mass. rewrite (mass_bases s1 s2 H).
  rewrite <- (py_sum_map base
                (fun c => fst (Component.position c) * Component.mass c)
                (all_components s1)).
  rewrite <- (py_sum_map base
                (fun c => snd (Component.position c) * Component.mass c)
                (all_components s1)).
  rewrite H, !py_sum_map. reflexivity.
Qed.

Lemma moment_of_inertia_bases (s1 s2 : Spaceship.t) :
  map base (all_components s1) = map base (all_components s2) ->
  moment_of_inertia s1 = moment_of_inertia s2.
Proof.
  intros H. unfold moment_of_inertia.
  rewrite (center_of_mass_bases s1 s2 H).
  destruct (center_of_mass s2) as [com|]; simpl; [|reflexivity].
  f_equal.
  change (py_sum (fun comp =>
                    Component.inertia (base comp)
                    + Component.mass (base comp)
                      * (fst (sub (Component.position (base comp)) com) ^ 2
                         + snd (sub (Component.position (base comp)) com) ^ 2))
            (all_components s1)
          = py_sum (fun comp =>
                    Component.inertia (base comp)
                    + Component.mass (base comp)
                      * (fst (sub (Component.position (base comp)) com) ^ 2
                         + snd (sub (Component.position (base comp)) com) ^ 2))
            (all_components s2)).
  rewrite <- (py_sum_map base
                (fun c => Component.inertia c
                          + Component.mass c
                            * (fst (sub (Component.position c) com) ^ 2
                               + snd (sub (Component.position c) com) ^ 2))
                (all_components s1)).
  rewrite H, py_sum_map. reflexivity.
Qed.

Lemma apply_controls_inv (s : Spaceship.t) (throttle : R)
  (control_surfaces : list (string * R)) :
  exists com aero,
    center_of_mass s = Ok com
    /\ compute_aero_forces
         (all_components
            (with_fuel_tanks s
               (snd (propulsion_outcome (engines s) (fuel_tanks s) throttle
                       (orientation s) com))))
         (wings s) (velocity s) (angular_velocity s) (orientation s) com
       = Ok aero
    /\ apply_controls s throttle control_surfaces
       = Ok (with_fuel_tanks s
               (snd (propulsion_outcome (engines s) (fuel_tanks s) throttle
                       (orientation s) com)),
             fst (propulsion_outcome (engines s) (fuel_tanks s) throttle
                    (orientation s) com),
             aero).
Proof.
  destruct (center_of_mass_total s) as [com Hcom].
  exists com.
  destruct (compute_aero_forces_total
              (all_components
                 (with_fuel_tanks s
                    (snd (propulsion_outcome (engines s) (fuel_tanks s) throttle
                            (orientation s) com))))
              (wings s) (velocity s) (angular_velocity s) (orientation s) com)
    as [aero Haero].
  exists aero. split; [exact Hcom|]. split; [exact Haero|].
  unfold apply_controls. rewrite Hcom. cbn [bind].
  rewrite compute_propulsion_eq.
  destruct (propulsion_outcome (engines s) (fuel_tanks s) throttle
              (orientation s) com) as [r tanks'].
  simpl in *. rewrite Haero. reflexivity.
Qed.

Lemma simulate_step_inv (s : Spaceship.t) (throttle dt : R)
  (control_surfaces : option (list (string * R))) :
  exists com aero inertia,
    let out := propulsion_outcome (engines s) (fuel_tanks s) throttle
                 (orientation s) com in
    let s1 := with_fuel_tanks s (snd out) in
    center_of_mass s = Ok com
    /\ compute_aero_forces (all_components s1) (wings s) (velocity s)
         (angular_velocity s) (orientation s) com = Ok aero
    /\ moment_of_inertia s1 = Ok inertia
    /\ simulate_step s throttle dt control_surfaces
       = Ok (moved s1 (tick_state s1 (fst out) aero inertia dt)).
Proof.
  destruct (apply_controls_inv s throttle
              (match control_surfaces with None => [] | Some d => d end))
    as (com & aero & Hcom & Haero & Happly).
  exists com, aero.
  set (s1 := with_fuel_tanks s
               (snd (propulsion_outcome (engines s) (fuel_tanks s) throttle
                       (orientation s) com))) in *.
  destruct (moment_of_inertia_total s1) as [inertia Hin].
  exists inertia. cbv zeta. fold s1.
  split; [exact Hcom|]. split; [exact Haero|]. split; [exact Hin|].
  unfold simulate_step. rewrite Happly. cbn [bind].
  destruct (center_of_mass_total s1) as [com1 ->]. cbn [bind].
  rewrite Hin. cbn [bind]. rewrite integrate_eq. cbn [bind].
  unfold moved, tick_state.
  match goal with
  | |- context [semi_implicit_euler ?p ?v ?o ?w ?f ?tq ?m ?i ?h] =>
      destruct (semi_implicit_euler p v o w f tq m i h) as [[[p' v'] o'] w']
  end.
  reflexivity.
Qed.

Lemma moved_lists (s : Spaceship.t) (k : Vector2 * Vector2 * R * R) :
  components (moved s k) = components s
  /\ engines (moved s k) = engines s
  /\ fuel_tanks (moved s k) = fuel_tanks s
  /\ wings (moved s k) = wings s.
Proof. destruct k as [[[p v] o] w]. repeat split; reflexivity. Qed.

Lemma moved_all_components (s : Spaceship.t) (k : Vector2 * Vector2 * R * R) :
  all_components (moved s k) = all_components s.
Proof. destruct k as [[[p v] o] w]. reflexivity. Qed.

Lemma outcome_frame (engines : list Engine) (tanks : list FuelTank)
  (throttle orientation : R) (com : Vector2) :
  let tanks' := snd (propulsion_outcome engines tanks throttle orientation com) in
  map tank_base tanks' = map tank_base tanks
  /\ map fuel_capacity tanks' = map fuel_capacity tanks.
Proof.
  unfold propulsion_outcome. simpl.
  destruct (Rlt_dec 0 _); [apply drain_tanks_frame | split; reflexivity].
Qed.

(** What one tick leaves alone, and what it reads afterwards. *)
Lemma simulate_step_frame (s : Spaceship.t) (throttle dt : R)
  (control_surfaces : option (list (string * R))) :
  exists s',
    simulate_step s throttle dt control_surfaces = Ok s'
    /\ components s' = components s
    /\ engines s' = engines s
    /\ wings s' = wings s
    /\ map tank_base (fuel_tanks s') = map tank_base (fuel_tanks s)
    /\ map fuel_capacity (fuel_tanks s') = map fuel_capacity (fuel_tanks s)
    /\ map base (all_components s') = map base (all_components s)
    /\ (forall com, center_of_mass s = Ok com ->
          fuel_tanks s'
          = snd (propulsion_outcome (engines s) (fuel_tanks s) throttle
                   (orientation s) com)).
Proof.
  destruct (simulate_step_inv s throttle dt control_surfaces)
    as (com & aero & inertia & Hcom & _ & _ & Hstep).
  eexists. split; [exact Hstep|].
  destruct (outcome_frame (engines s) (fuel_tanks s) throttle (orientation s) com)
    as [Hb Hc].
  match goal with
  | |- context [moved ?a ?k] =>
      destruct (moved_lists a k) as (-> & -> & -> & ->);
      rewrite (moved_all_components a k)
  end.
  simpl. repeat split; try assumption.
  - apply bases_with_fuel_tanks. exact Hb.
  - intros com' Hcom'. rewrite Hcom in Hcom'. injection Hcom' as <-. reflexivity.
Qed.

(** * Derived quantities and fuel *)

Lemma mass_attach (s : Spaceship.t) (c : AnyComponent) :
  mass (attach s c) = mass s + Component.mass (base c).
Proof.
  unfold mass, all_components.
  destruct c; simpl; rewrite ?map_app, !py_sum_app; simpl;
    rewrite ?py_sum_app, ?py_sum_cons, ?py_sum_nil; simpl; lra.
Qed.

Lemma burning_craft_burns (com : Vector2) (o : R) :
  fuel_available [half_tank]
  - fuel_available (snd (propulsion_outcome [thirsty_engine] [half_tank] 1 o com))
  = 5.
Proof.
  rewrite propulsion_conserves. unfold propulsion_outcome. simpl.
  assert (fuel_needed [thirsty_engine] 1 o com = 10) as ->.
  { rewrite fuel_needed_sum, py_sum_cons, py_sum_nil, clamped_high by lra.
    simpl. lra. }
  assert (fuel_available [half_tank] = 5) as ->.
  { unfold fuel_available. rewrite py_sum_cons, py_sum_nil. simpl. lra. }
  assert (py_min 5 10 = 5) as -> by (unfold py_min; rcases; lra).
  unfold py_max. rcases; lra.
Qed.

(** C3, as stated, fails: a tick that burns 5 units of fuel leaves the value
    of the mass accessor where it was. *)
Lemma mass_after_burn_counterexample :
  exists s',
    simulate_step burning_craft 1 1 None = Ok s'
    /\ 0 < fuel_available (fuel_tanks burning_craft)
           - fuel_available (fuel_tanks s')
    /\ ~ mass s' < mass burning_craft.
Proof.
  destruct (simulate_step_frame burning_craft 1 1 None)
    as (s' & Hstep & _ & _ & _ & _ & _ & Hbases & Htanks).
  exists s'. split; [exact Hstep|].
  destruct (center_of_mass_total burning_craft) as [com Hcom].
  rewrite (Htanks com Hcom). split.
  - change (fuel_tanks burning_craft) with [half_tank].
    change (engines burning_craft) with [thirsty_engine].
    rewrite burning_craft_burns. lra.
  - rewrite (mass_bases _ _ Hbases). lra.
Qed.

(** C3 (amended): mass, center of mass and moment of inertia are functions of
    the component lists as they are at the time of the access (attaching a
    part raises the mass by that part's mass at once); they read each part's
    mass, position, size and inertia override and never its fuel level, so a
    tick, which only drains fuel levels, leaves all three unchanged. *)
Theorem derived_quantities_ignore_fuel :
  forall (s : Spaceship.t) (throttle dt : R)
         (control_surfaces : option (list (string * R))),
    (forall c, mass (attach s c) = mass s + Component.mass (base c))
    /\ exists s',
        simulate_step s throttle dt control_surfaces = Ok s'
        /\ mass s' = mass s
        /\ center_of_mass s' = center_of_mass s
        /\ moment_of_inertia s' = moment_of_inertia s.
Proof.
  intros s throttle dt control_surfaces.
  split; [intros c; apply mass_attach|].
  destruct (simulate_step_frame s throttle dt control_surfaces)
    as (s' & Hstep & _ & _ & _ & _ & _ & Hbases & _).
  exists s'. split; [exact Hstep|].
  split; [|split].
  - apply mass_bases, Hbases.
  - apply center_of_mass_bases, Hbases.
  - apply moment_of_inertia_bases, Hbases.
Qed.

(** * Throttle clamping *)

Lemma propulsion_outcome_clamped (engines : list Engine) (tanks : list FuelTank)
  (t1 t2 orientation : R) (com : Vector2) :
  clamped t1 = clamped t2 ->
  propulsion_outcome engines tanks t1 orientation com
  = propulsion_outcome engines tanks t2 orientation com.
Proof.
  intros H.
  unfold propulsion_outcome, fuel_needed, nominal_force, nominal_torque.
  rewrite H. reflexivity.
Qed.

Lemma apply_controls_clamped (s : Spaceship.t) (t1 t2 : R)
  (control_surfaces : list (string * R)) :
  clamped t1 = clamped t2 ->
  apply_controls s t1 control_surfaces = apply_controls s t2 control_surfaces.
Proof.
  intros H. unfold apply_controls.
  destruct (center_of_mass s) as [com|]; [|reflexivity]. cbn [bind].
  rewrite !compute_propulsion_eq.
  rewrite (propulsion_outcome_clamped _ _ t1 t2 _ _ H). reflexivity.
Qed.

Lemma simulate_step_clamped (s : Spaceship.t) (t1 t2 dt : R)
  (control_surfaces : option (list (string * R))) :
  clamped t1 = clamped t2 ->
  simulate_step s t1 dt control_surfaces = simulate_step s t2 dt control_surfaces.
Proof.
  intros H. unfold simulate_step.
  rewrite (apply_controls_clamped s t1 t2 _ H). reflexivity.
Qed.

(** C4: a tick at throttle 2 is the tick at throttle 1, and a tick at
    throttle -1 is the tick at throttle 0: same resulting craft (kinematic
    state and tank levels), same force, torque and fuel used from the force
    models; and the out-of-range command is accepted, never rejected.  In
    general a tick at any throttle is the tick at that throttle clamped to
    [0, 1]. *)
Theorem throttle_clamping :
  forall (s : Spaceship.t) (dt : R)
         (control_surfaces : option (list (string * R))),
    simulate_step s 2 dt control_surfaces = simulate_step s 1 dt control_surfaces
    /\ simulate_step s (-1) dt control_surfaces
       = simulate_step s 0 dt control_surfaces
    /\ (forall d, apply_controls s 2 d = apply_controls s 1 d)
    /\ (forall d, apply_controls s (-1) d = apply_controls s 0 d)
    /\ (exists s', simulate_step s 2 dt control_surfaces = Ok s')
    /\ (exists s', simulate_step s (-1) dt control_surfaces = Ok s')
    /\ (forall throttle,
          0 <= clamped throttle <= 1
          /\ simulate_step s throttle dt control_surfaces
             = simulate_step s (clamped throttle) dt control_surfaces).
Proof.
  intros s dt control_surfaces.
  assert (clamped 2 = clamped 1) as H21
      by (rewrite !clamped_high by lra; reflexivity).
  assert (clamped (-1) = clamped 0) as H10
      by (rewrite !clamped_low by lra; reflexivity).
  split; [apply simulate_step_clamped, H21|].
  split; [apply simulate_step_clamped, H10|].
  split; [intros d; apply apply_controls_clamped, H21|].
  split; [intros d; apply apply_controls_clamped, H10|].
  split; [|split].
  - destruct (simulate_step_frame s 2 dt control_surfaces) as (s' & H & _).
    exists s'. exact H.
  - destruct (simulate_step_frame s (-1) dt control_surfaces) as (s' & H & _).
    exists s'. exact H.
  - intros throttle. split; [apply clamped_range|].
    apply simulate_step_clamped. symmetry. apply clamped_idempotent.
Qed.

(** * Integration order *)

(** C5: [integrate] is semi-implicit Euler: the velocity is updated from
    force/mass (zero acceleration when mass <= 0) and the updated velocity
    advances the position; the angular velocity is updated from
    torque/inertia (zero when inertia <= 0) and the updated angular velocity
    advances the orientation.  It is not explicit Euler: on a unit force
    applied for one second to a unit mass at rest the two disagree. *)
Theorem integrate_is_semi_implicit :
  (forall (position velocity : Vector2) (orientation angular_velocity : R)
          (force : Vector2) (torque mass inertia dt : R),
      integrate position velocity orientation angular_velocity force torque
        mass inertia dt
      = Ok (semi_implicit_euler position velocity orientation angular_velocity
              force torque mass inertia dt)
      /\ exists position' velocity' orientation' angular_velocity',
          integrate position velocity orientation angular_velocity force
            torque mass inertia dt
          = Ok (position', velocity', orientation', angular_velocity')
          /\ velocity'
             = add velocity
                 (mul (if Rlt_dec 0 mass
                       then (fst force / mass, snd force / mass)
                       else (0, 0)) dt)
          /\ position' = add position (mul velocity' dt)
          /\ angular_velocity'
             = angular_velocity
               + (if Rlt_dec 0 inertia then torque / inertia else 0) * dt
          /\ orientation' = orientation + angular_velocity' * dt)
  /\ integrate (0, 0) (0, 0) 0 0 (1, 0) 1 1 1 1
     <> Ok (explicit_euler (0, 0) (0, 0) 0 0 (1, 0) 1 1 1 1).
Proof.
  split.
  - intros position velocity orientation angular_velocity force torque mass
      inertia dt.
    split; [apply integrate_eq|].
    rewrite integrate_eq. unfold semi_implicit_euler.
    do 4 eexists. split; [reflexivity|].
    repeat split.
  - rewrite integrate_eq. unfold semi_implicit_euler, explicit_euler. simpl.
    destruct (Rlt_dec 0 1) as [_|H]; [|lra]. simpl.
    intros H. injection H as H _. lra.
Qed.

(** * Aerodynamics at rest *)

(** C7: for a craft whose velocity is (0,0) and whose angular velocity is 0,
    [compute_aero_forces] returns normally with zero force and zero torque
    about any center of mass; the drag of every component and the lift of
    every wing are the zero vector, and [normalize] of the zero vector is
    the zero vector: no division by zero is reached. *)
Theorem aero_forces_vanish_at_rest :
  forall (s : Spaceship.t) (com : Vector2),
    velocity s = (0, 0) ->
    angular_velocity s = 0 ->
    compute_aero_forces (all_components s) (wings s) (velocity s)
      (angular_velocity s) (orientation s) com
    = Ok {| linear := (0, 0); aero_torque := 0 |}
    /\ (forall comp, In comp (all_components s) ->
          aerodynamic_drag
            (rotate (point_velocity (velocity s) (angular_velocity s)
                       (Component.position (base comp)) com)
               (- orientation s))
            (Component.drag_area (base comp)) DRAG_COEFFICIENT
          = Ok (0, 0))
    /\ (forall wing, In wing (wings s) ->
          aerodynamic_lift wing
            (rotate (point_velocity (velocity s) (angular_velocity s)
                       (Component.position (wing_base wing)) com)
               (- orientation s))
          = (0, 0))
    /\ normalize (0, 0) = Ok (0, 0).
Proof.
  intros s com Hv Hw. rewrite Hv, Hw.
  split; [apply compute_aero_forces_rest|].
  split; [|split].
  - intros comp _. rewrite point_velocity_rest, rotate_zero.
    apply aerodynamic_drag_rest.
  - intros wing _. rewrite point_velocity_rest, rotate_zero.
    apply aerodynamic_lift_rest.
  - apply normalize_zero.
Qed.

Lemma aero_forces_vanish_at_rest_witness :
  compute_aero_forces (all_components winged_craft) (wings winged_craft)
    (velocity winged_craft) (angular_velocity winged_craft)
    (orientation winged_craft) (0, 0)
  = Ok {| linear := (0, 0); aero_torque := 0 |}.
Proof.
  exact (proj1 (aero_forces_vanish_at_rest winged_craft (0, 0)
                  eq_refl eq_refl)).
Defined.

(** * Frame of a tick *)

(** C8: [simulate_step] returns normally, its only result being the craft
    as the call leaves it; the four component lists keep their members and
    order: the generic components, the engines and the wings are the same
    values, and the tanks are the same in everything but [fuel_level]. *)
Theorem simulate_step_mutates_only_state_and_fuel :
  forall (s : Spaceship.t) (throttle dt : R)
         (control_surfaces : option (list (string * R))),
  exists s',
    simulate_step s throttle dt control_surfaces = Ok s'
    /\ components s' = components s
    /\ engines s' = engines s
    /\ wings s' = wings s
    /\ List.length (fuel_tanks s') = List.length (fuel_tanks s)
    /\ map tank_base (fuel_tanks s') = map tank_base (fuel_tanks s)
    /\ map fuel_capacity (fuel_tanks s') = map fuel_capacity (fuel_tanks s).
Proof.
  intros s throttle dt control_surfaces.
  destruct (simulate_step_frame s throttle dt control_surfaces)
    as (s' & Hstep & Hc & He & Hw & Hb & Hcap & _).
  exists s'. repeat split; try assumption.
  rewrite <- (length_map tank_base (fuel_tanks s')), Hb.
  apply length_map.
Qed.

(** * The empty craft *)

(** C10: when the total mass is zero the center of mass is (0,0), where the
    division by the total mass would raise; so the moment of inertia, the
    force models and a whole tick return normally on such a craft, the craft
    with no components among them. *)
Theorem center_of_mass_guards_zero_mass :
  forall (s : Spaceship.t),
    mass s = 0 ->
    center_of_mass s = Ok (0, 0)
    /\ (forall x, fdiv x (mass s) = ZeroDivisionError)
    /\ (exists inertia, moment_of_inertia s = Ok inertia)
    /\ (forall throttle d, exists out, apply_controls s throttle d = Ok out)
    /\ (forall throttle dt control_surfaces,
          exists s', simulate_step s throttle dt control_surfaces = Ok s')
    /\ mass Spaceship.new = 0.
Proof.
  intros s Hm. split; [|split; [|split; [|split; [|split]]]].
  - unfold center_of_mass.
    destruct (Req_dec_T (mass s) 0); [reflexivity | contradiction].
  - intros x. rewrite Hm. apply fdiv_zero.
  - apply moment_of_inertia_total.
  - intros throttle d.
    destruct (apply_controls_inv s throttle d) as (com & aero & _ & _ & H).
    eexists. exact H.
  - intros throttle dt control_surfaces.
    destruct (simulate_step_frame s throttle dt control_surfaces)
      as (s' & H & _).
    exists s'. exact H.
  - reflexivity.
Qed.

Lemma center_of_mass_guards_zero_mass_witness :
  center_of_mass Spaceship.new = Ok (0, 0).
Proof.
  exact (proj1 (center_of_mass_guards_zero_mass Spaceship.new eq_refl)).
Defined.

(** * Center of mass and moment of inertia *)

Lemma moment_of_inertia_sum (s : Spaceship.t) (com : Vector2) :
  center_of_mass s = Ok com ->
  moment_of_inertia s
  = Ok (py_sum (fun c => Component.inertia (base c)
                         + Component.mass (base c)
                           * squared_distance (Component.position (base c)) com)
          (all_components s)).
Proof. intros H. unfold moment_of_inertia. rewrite H. reflexivity. Qed.









(** * Vectors and the closed form of the drag *)

Lemma hypot_square (x y : R) : hypot x y * hypot x y = x * x + y * y.
Proof. unfold hypot. apply sqrt_sqrt. nra. Qed.



Lemma length_zero_iff (v : Vector2) : length v = 0 <-> v = (0, 0).
Proof.
  destruct v as [x y]. split.
  - intros H. pose proof (hypot_square x y) as Hsq.
    unfold length in H. simpl in H. rewrite H in Hsq.
    assert (x = 0) by nra. assert (y = 0) by nra. subst. reflexivity.
  - intros H. rewrite H. apply length_zero.
Qed.

Lemma length_scaled (v : Vector2) (k : R) : length (mul v k) = Rabs k * length v.
Proof.
  destruct v as [x y]. unfold length, mul, hypot. simpl.
  replace (x * k * (x * k) + y * k * (y * k)) with (k * k * (x * x + y * y))
    by ring.
  rewrite sqrt_mult_alt by nra.
  f_equal. apply sqrt_Rsqr_abs.
Qed.

Lemma normalize_nonzero (v : Vector2) :
  length v <> 0 -> normalize v = Ok (fst v / length v, snd v / length v).
Proof.
  intros H. unfold normalize.
  destruct (Req_dec_T (length v) 0); [contradiction|].
  rewrite !fdiv_ok by exact H. reflexivity.
Qed.

Lemma length_reversed (v : Vector2) : length (mul v (-1)) = length v.
Proof.
  rewrite length_scaled.
  assert (Rabs (-1) = 1) as -> by (unfold Rabs; destruct (Rcase_abs (-1)); lra).
  ring.
Qed.

Lemma aerodynamic_drag_closed (velocity : Vector2) (reference_area cd : R) :
  aerodynamic_drag velocity reference_area cd
  = Ok (mul velocity
          (- ((5 / 10) * ATMOSPHERIC_DENSITY * cd * reference_area
              * length velocity))).
Proof.
  unfold aerodynamic_drag.
  destruct (Req_dec_T (length velocity) 0) as [Hz|Hnz].
  - apply length_zero_iff in Hz. subst velocity.
    apply f_equal. unfold mul. cbn [fst snd]. tuple_eq; ring.
  - rewrite normalize_nonzero by (rewrite length_reversed; exact Hnz).
    rewrite length_reversed. cbn [bind].
    destruct velocity as [x y]. unfold mul. cbn [fst snd].
    apply f_equal. tuple_eq; field; exact Hnz.
Qed.




(** * Vertical ascent *)







Section VerticalDrag.

Variables (vy : R) (com : Vector2).
Hypothesis Hvy : 0 <= vy.







End VerticalDrag.

Lemma fuel_needed_single (e : Engine) (throttle orientation : R) (com : Vector2) :
  1 <= throttle ->
  fuel_needed [e] throttle orientation com = fuel_consumption e.
Proof.
  intros H.
  rewrite fuel_needed_sum, py_sum_cons, py_sum_nil, clamped_high by exact H.
  ring.
Qed.































(** * Vector primitives *)





(** * Drag and lift *)



Lemma clamp_to_stall (angle stall : R) :
  0 <= stall -> Rabs (py_max (py_min (- angle) stall) (- stall)) <= stall.
Proof.
  intros H. unfold py_min.
  destruct (Rlt_dec stall (- angle)); unfold py_max;
    destruct (Rlt_dec _ (- stall)); apply Rabs_le; lra.
Qed.

(** X5: the lift of a wing has no component along the body axis, and for a
    non-negative stall angle its magnitude is at most
    [|lift_curve| * radians(stall_angle) * 0.5 * density * speed ^ 2 * |area|]:
    the angle of attack saturates at the stall angle. *)
Theorem lift_saturates_at_stall :
  forall (wing : Wing) (velocity_body : Vector2),
    0 <= stall_angle wing ->
    fst (aerodynamic_lift wing velocity_body) = 0
    /\ Rabs (snd (aerodynamic_lift wing velocity_body))
       <= Rabs (lift_curve wing) * radians (stall_angle wing)
          * ((5 / 10) * ATMOSPHERIC_DENSITY * length velocity_body ^ 2)
          * Rabs (area wing).
Proof.
  intros wing v Hstall.
  assert (0 <= PI / 180) as Hrad by (pose proof PI_RGT_0; lra).
  assert (0 <= radians (stall_angle wing)) as Hrs
      by (unfold radians; apply Rmult_le_pos; assumption).
  assert (0 <= (5 / 10) * ATMOSPHERIC_DENSITY * length v ^ 2) as Hq.
  { unfold ATMOSPHERIC_DENSITY. pose proof (pow2_ge_0 (length v)). lra. }
  assert (0 <= Rabs (lift_curve wing) * radians (stall_angle wing)
               * ((5 / 10) * ATMOSPHERIC_DENSITY * length v ^ 2)
               * Rabs (area wing)) as Hbound.
  { apply Rmult_le_pos; [|apply Rabs_pos].
    apply Rmult_le_pos; [|exact Hq].
    apply Rmult_le_pos; [apply Rabs_pos | exact Hrs]. }
  unfold aerodynamic_lift.
  destruct (Req_dec_T (length v) 0) as [Hz|Hnz].
  - cbn [fst snd]. split; [reflexivity|]. rewrite Rabs_R0. exact Hbound.
  - unfold mul. cbn [fst snd]. split; [ring|].
    set (alpha := py_max (py_min (- degrees (atan2 (snd v) (fst v)))
                            (stall_angle wing)) (- stall_angle wing)).
    pose proof (clamp_to_stall (degrees (atan2 (snd v) (fst v)))
                  (stall_angle wing) Hstall) as Halpha.
    fold alpha in Halpha.
    set (q := (5 / 10) * ATMOSPHERIC_DENSITY * length v ^ 2) in *.
    rewrite Rmult_1_l, !Rabs_mult.
    rewrite (Rabs_right q) by lra.
    assert (Rabs (radians alpha) <= radians (stall_angle wing)) as Hr.
    { unfold radians. rewrite Rabs_mult, (Rabs_right (PI / 180)) by lra.
      apply Rmult_le_compat_r; assumption. }
    apply Rmult_le_compat_r; [apply Rabs_pos|].
    apply Rmult_le_compat_r; [exact Hq|].
    apply Rmult_le_compat_l; [apply Rabs_pos | exact Hr].
Qed.

Lemma lift_saturates_at_stall_witness :
  fst (aerodynamic_lift port_wing (3, 4)) = 0.
Proof.
  apply (lift_saturates_at_stall port_wing (3, 4)). simpl. lra.
Defined.

(** * More on propulsion *)

Lemma drain_left_stop (tanks : list FuelTank) (drain : R) :
  drain <= 0 -> drain_left tanks drain = drain.
Proof.
  intros H. destruct tanks as [|tank rest]; simpl; [reflexivity|].
  destruct (Rle_dec drain 0); [reflexivity | contradiction].
Qed.

Lemma drain_tanks_app (front back : list FuelTank) :
  forall drain,
    drain_tanks (front ++ back) drain
    = drain_tanks front drain ++ drain_tanks back (drain_left front drain).
Proof.
  induction front as [|tank rest IH]; intros drain; simpl.
  - reflexivity.
  - destruct (Rle_dec drain 0) as [Hle|Hgt].
    + rewrite drain_tanks_stop by exact Hle. reflexivity.
    + simpl. rewrite IH. reflexivity.
Qed.

Lemma drain_tanks_length (tanks : list FuelTank) (drain : R) :
  List.length (drain_tanks tanks drain) = List.length tanks.
Proof.
  rewrite <- (length_map tank_base (drain_tanks tanks drain)).
  destruct (drain_tanks_frame tanks drain) as [-> _]. apply length_map.
Qed.

Lemma drain_left_empties (tanks : list FuelTank) :
  forall drain,
    Forall (fun t => 0 <= fuel_level t) tanks ->
    0 < drain_left tanks drain ->
    Forall (fun t => fuel_level t = 0) (drain_tanks tanks drain).
Proof.
  induction tanks as [|tank rest IH]; intros drain Hpos Hleft; simpl in *.
  - constructor.
  - destruct (Rle_dec drain 0) as [Hle|Hgt]; [lra|].
    inversion Hpos as [|? ? Ht Hrest]; subst.
    unfold py_min in *.
    destruct (Rlt_dec drain (fuel_level tank)) as [Hlt|Hge].
    + rewrite drain_left_stop in Hleft by lra. lra.
    + constructor; [simpl; lra|]. apply IH; assumption.
Qed.

(** X6: the drain loop empties the tanks in list order.  Whatever the amount
    drained, the tanks keep their places; a tank's level changes only if
    every tank before it ends empty (for tanks before it that held no
    negative level), and if a tank ends with fuel left, no tank after it is
    touched. *)
Theorem tanks_drain_in_list_order :
  forall (front : list FuelTank) (tank : FuelTank) (back : list FuelTank)
         (drain : R),
    Forall (fun t => 0 <= fuel_level t) front ->
    exists front' tank' back',
      drain_tanks (front ++ tank :: back) drain = front' ++ tank' :: back'
      /\ List.length front' = List.length front
      /\ List.length back' = List.length back
      /\ (fuel_level tank' <> fuel_level tank ->
          Forall (fun t => fuel_level t = 0) front')
      /\ (0 < fuel_level tank' -> back' = back).
Proof.
  intros front tank back drain Hfront.
  rewrite drain_tanks_app.
  set (left := drain_left front drain).
  pose proof (drain_left_empties front drain Hfront) as Hempty. fold left in Hempty.
  cbn [drain_tanks].
  destruct (Rle_dec left 0) as [Hle|Hgt].
  - exists (drain_tanks front drain), tank, back.
    split; [reflexivity|]. split; [apply drain_tanks_length|].
    split; [reflexivity|]. split; [intros H; contradiction H; reflexivity|].
    reflexivity.
  - eexists (drain_tanks front drain), _, _.
    split; [reflexivity|]. split; [apply drain_tanks_length|].
    split; [apply drain_tanks_length|]. split.
    + intros _. apply Hempty. lra.
    + cbn [fuel_level set_fuel_level]. unfold py_min.
      destruct (Rlt_dec left (fuel_level tank)) as [Hlt|Hge].
      * intros _. apply drain_tanks_stop. lra.
      * intros H. lra.
Qed.

Lemma tanks_drain_in_list_order_witness :
  exists front' tank' back',
    drain_tanks ([half_tank] ++ kite_tank :: [half_tank]) 3
    = front' ++ tank' :: back'
    /\ List.length front' = 1%nat.
Proof.
  destruct (tanks_drain_in_list_order [half_tank] kite_tank [half_tank] 3)
    as (front' & tank' & back' & Heq & Hlen & _).
  - constructor; [simpl; lra | constructor].
  - exists front', tank', back'. split; assumption.
Defined.

Lemma engines_idle (orientation : R) (com : Vector2) (engines : list Engine) :
  fold_left (engine_step 0 orientation com) engines ((0, 0), 0, 0)
  = ((0, 0), 0, 0).
Proof.
  induction engines as [|e rest IH]; simpl; [reflexivity|].
  replace (add (0, 0) (mul (rotate (direction e) orientation) (thrust e * 0)))
    with ((0, 0) : Vector2)
    by (unfold add, mul; cbn [fst snd]; tuple_eq; ring).
  replace (0 + cross_z (sub (Component.position (engine_base e)) com)
                 (mul (rotate (direction e) orientation) (thrust e * 0)))
    with 0 by (unfold cross_z, mul; cbn [fst snd]; ring).
  replace (0 + fuel_consumption e * 0) with 0 by ring.
  exact IH.
Qed.

(** X7: at a throttle of zero or below the engines give no force and no
    torque and no tank is touched, whatever the engines and the tanks; the
    fuel reported as used is zero when the tanks hold no negative total. *)
Theorem idle_throttle_burns_nothing :
  forall (engines : list Engine) (tanks : list FuelTank)
         (throttle orientation : R) (com : Vector2),
    throttle <= 0 ->
    exists r,
      compute_propulsion engines tanks throttle orientation com = Ok (r, tanks)
      /\ force r = (0, 0)
      /\ torque r = 0
      /\ fuel_used r <= 0
      /\ (0 <= fuel_available tanks -> fuel_used r = 0).
Proof.
  intros engines tanks throttle orientation com Hth.
  rewrite compute_propulsion_eq.
  unfold propulsion_outcome, fuel_needed, nominal_force, nominal_torque,
    accumulate_engines.
  rewrite (clamped_low throttle Hth), engines_idle. cbn [fst snd].
  destruct (Rlt_dec 0 0) as [H|_]; [lra|].
  assert (py_min (fuel_available tanks) 0 <= 0) as Hmin
      by (unfold py_min; rcases; lra).
  destruct (Rlt_dec 0 (py_min (fuel_available tanks) 0)) as [H|_]; [lra|].
  eexists. split; [reflexivity|]. cbn [force torque fuel_used].
  repeat split; try assumption.
  intros Hav. unfold py_min. rcases; lra.
Qed.

Lemma idle_throttle_burns_nothing_witness :
  exists r,
    compute_propulsion [thirsty_engine] [half_tank] 0 0 (0, 0)
    = Ok (r, [half_tank])
    /\ force r = (0, 0).
Proof.
  destruct (idle_throttle_burns_nothing [thirsty_engine] [half_tank] 0 0 (0, 0))
    as (r & Hrun & Hforce & _).
  - lra.
  - exists r. split; assumption.
Defined.

(** X8: when the tanks hold at least the fuel required, the engines deliver
    the nominal force and torque and the fuel reported as used is the fuel
    required; when that is not positive, no tank is touched. *)
Theorem enough_fuel_gives_nominal_thrust :
  forall (engines : list Engine) (tanks : list FuelTank)
         (throttle orientation : R) (com : Vector2),
    fuel_needed engines throttle orientation com <= fuel_available tanks ->
    exists r tanks',
      compute_propulsion engines tanks throttle orientation com = Ok (r, tanks')
      /\ force r = nominal_force engines throttle orientation com
      /\ torque r = nominal_torque engines throttle orientation com
      /\ fuel_used r = fuel_needed engines throttle orientation com
      /\ (fuel_needed engines throttle orientation com <= 0 ->
          tanks' = tanks).
Proof.
  intros engines tanks throttle orientation com Hle.
  rewrite compute_propulsion_eq.
  unfold propulsion_outcome.
  set (needed := fuel_needed engines throttle orientation com) in *.
  assert (py_min (fuel_available tanks) needed = needed) as ->
      by (unfold py_min; rcases; lra).
  eexists. eexists. split; [reflexivity|]. cbn [force torque fuel_used].
  destruct (Rlt_dec 0 needed) as [Hpos|Hneg].
  - replace (needed / needed) with 1 by (field; lra).
    split; [|split; [ring|split; [reflexivity|]]].
    + destruct (nominal_force engines throttle orientation com) as [fx fy].
      unfold mul. cbn [fst snd]. tuple_eq; ring.
    + intros H. lra.
  - repeat split.
Qed.

Lemma enough_fuel_gives_nominal_thrust_witness :
  exists r tanks',
    compute_propulsion [kite_engine] [half_tank] 1 0 (0, 0) = Ok (r, tanks')
    /\ fuel_used r = fuel_needed [kite_engine] 1 0 (0, 0).
Proof.
  destruct (enough_fuel_gives_nominal_thrust [kite_engine] [half_tank] 1 0 (0, 0))
    as (r & tanks' & Hrun & _ & _ & Hused & _).
  - rewrite fuel_needed_single by lra. unfold fuel_available.
    rewrite py_sum_cons, py_sum_nil. simpl. lra.
  - exists r, tanks'. split; assumption.
Defined.

(** * More on aerodynamics and integration *)

Lemma zero_area_drag (velocity : Vector2) (cd : R) :
  aerodynamic_drag velocity 0 cd = Ok (0, 0).
Proof.
  rewrite aerodynamic_drag_closed. apply f_equal.
  destruct velocity as [x y]. unfold mul. cbn [fst snd]. tuple_eq; ring.
Qed.

Lemma zero_area_lift (wing : Wing) (velocity_body : Vector2) :
  area wing = 0 -> aerodynamic_lift wing velocity_body = (0, 0).
Proof.
  intros Ha. unfold aerodynamic_lift.
  destruct (Req_dec_T (length velocity_body) 0); [reflexivity|].
  rewrite Ha. unfold mul. cbn [fst snd]. tuple_eq; ring.
Qed.

Lemma add_zero_zero : add (0, 0) (0, 0) = (0, 0).
Proof. unfold add. cbn [fst snd]. tuple_eq; ring. Qed.

Lemma cross_z_zero (lever : Vector2) : 0 + cross_z lever (0, 0) = 0.
Proof. unfold cross_z. cbn [fst snd]. ring. Qed.

Lemma drag_loop_no_area (velocity : Vector2) (angular_velocity orientation : R)
  (com : Vector2) (components : list AnyComponent) :
  Forall (fun c => Component.drag_area (base c) = 0) components ->
  for_each (drag_step velocity angular_velocity orientation com) components
    ((0, 0), 0)
  = Ok ((0, 0), 0).
Proof.
  induction 1 as [|comp rest Hc _ IH]; [reflexivity|].
  cbn [for_each]. unfold drag_step at 1.
  rewrite Hc, zero_area_drag. cbn [bind].
  rewrite rotate_zero, add_zero_zero, cross_z_zero. exact IH.
Qed.

Lemma lift_loop_no_area (velocity : Vector2) (angular_velocity orientation : R)
  (com : Vector2) (wings : list Wing) :
  Forall (fun w => area w = 0) wings ->
  for_each (lift_step velocity angular_velocity orientation com) wings
    ((0, 0), 0)
  = Ok ((0, 0), 0).
Proof.
  induction 1 as [|wing rest Hw _ IH]; [reflexivity|].
  cbn [for_each]. unfold lift_step at 1.
  rewrite (zero_area_lift wing _ Hw). cbn [bind].
  rewrite rotate_zero, add_zero_zero, cross_z_zero. exact IH.
Qed.

Lemma compute_aero_forces_no_area (components : list AnyComponent)
  (wings : list Wing) (velocity : Vector2) (angular_velocity orientation : R)
  (com : Vector2) :
  Forall (fun c => Component.drag_area (base c) = 0) components ->
  Forall (fun w => area w = 0) wings ->
  compute_aero_forces components wings velocity angular_velocity orientation com
  = Ok {| linear := (0, 0); aero_torque := 0 |}.
Proof.
  intros Hc Hw. unfold compute_aero_forces.
  rewrite (drag_loop_no_area _ _ _ _ _ Hc). cbn [bind].
  rewrite (lift_loop_no_area _ _ _ _ _ Hw). reflexivity.
Qed.

(** X9: a craft whose parts have no drag area and whose wings have no
    lifting area feels no aerodynamic force and no aerodynamic torque, at
    any velocity, spin, orientation and center of mass. *)
Theorem no_area_no_aerodynamics :
  forall (components : list AnyComponent) (wings : list Wing)
         (velocity : Vector2) (angular_velocity orientation : R)
         (com : Vector2),
    Forall (fun c => Component.drag_area (base c) = 0) components ->
    Forall (fun w => area w = 0) wings ->
    compute_aero_forces components wings velocity angular_velocity
      orientation com
    = Ok {| linear := (0, 0); aero_torque := 0 |}.
Proof. exact compute_aero_forces_no_area. Qed.

Lemma no_area_no_aerodynamics_witness :
  compute_aero_forces (all_components rocket) (wings rocket) (3, 4) 1 0 (0, 0)
  = Ok {| linear := (0, 0); aero_torque := 0 |}.
Proof.
  apply no_area_no_aerodynamics.
  - repeat constructor.
  - constructor.
Defined.

(** X10: [integrate] over a time step of zero returns the state it was
    given, and under zero force and zero torque it keeps both velocities and
    advances position and orientation by velocity times [dt], whatever the
    mass and the inertia. *)
Theorem integrate_rest_cases :
  forall (position velocity : Vector2) (orientation angular_velocity : R)
         (force : Vector2) (torque mass inertia dt : R),
    integrate position velocity orientation angular_velocity force torque
      mass inertia 0
    = Ok (position, velocity, orientation, angular_velocity)
    /\ integrate position velocity orientation angular_velocity (0, 0) 0
         mass inertia dt
       = Ok (add position (mul velocity dt), velocity,
             orientation + angular_velocity * dt, angular_velocity).
Proof.
  intros [px p_y] [vx vy] orientation angular_velocity [fx fy] torque mass
    inertia dt.
  rewrite !integrate_eq. unfold semi_implicit_euler, add, mul. cbn [fst snd].
  split; apply f_equal;
    destruct (Rlt_dec 0 mass); destruct (Rlt_dec 0 inertia); cbn [fst snd];
    tuple_eq; unfold Rdiv; ring.
Qed.

(** * More on the craft *)

Lemma appended_inside {A : Type} (l1 l2 l3 : list A) (x : A) :
  Permutation (l1 ++ (l2 ++ [x]) ++ l3) (x :: l1 ++ l2 ++ l3).
Proof.
  rewrite <- (app_assoc l2 [x] l3). cbn [app].
  rewrite !app_assoc. symmetry. apply Permutation_middle.
Qed.

Lemma all_components_attach (s : Spaceship.t) (c : AnyComponent) :
  Permutation (all_components (attach s c)) (c :: all_components s).
Proof.
  unfold all_components.
  destruct c as [c|e|tk|w|h|c];
    cbn [attach components engines fuel_tanks wings]; rewrite ?map_app;
    cbn [map].
  - apply (appended_inside [] (components s)).
  - apply appended_inside.
  - rewrite !(app_assoc (components s)). apply appended_inside.
  - rewrite <- (app_nil_r (map IsWing (wings s) ++ [IsWing w])).
    rewrite !(app_assoc (components s)), !(app_assoc (_ ++ map IsEngine _)).
    rewrite <- (app_nil_r (map IsWing (wings s))) at 2.
    apply appended_inside.
  - apply (appended_inside [] (components s)).
  - apply (appended_inside [] (components s)).
Qed.




Lemma own_inertia_nonneg (c : Component.t) :
  0 <= Component.mass c ->
  match Component.inertia_override c with Some i => 0 <= i | None => True end ->
  0 <= Component.inertia c.
Proof.
  intros Hm Ho. unfold Component.inertia.
  destruct (Component.inertia_override c) as [i|]; [exact Ho|].
  destruct (Component.size c) as [w h].
  pose proof (pow2_ge_0 w). pose proof (pow2_ge_0 h).
  assert (0 <= Component.mass c * (w ^ 2 + h ^ 2))
    by (apply Rmult_le_pos; lra).
  lra.
Qed.

(** X13: for parts with non-negative mass and non-negative inertia override
    (if any), the moment of inertia is defined, not negative and at least
    the sum of the parts' own inertias; the inertia [simulate_step] hands to
    the integrator, floored at 0.001, is always positive. *)
Theorem moment_of_inertia_nonneg :
  forall s : Spaceship.t,
    Forall (fun c =>
              0 <= Component.mass (base c)
              /\ match Component.inertia_override (base c) with
                 | Some i => 0 <= i
                 | None => True
                 end)
      (all_components s) ->
    exists inertia,
      moment_of_inertia s = Ok inertia
      /\ 0 <= py_sum (fun c => Component.inertia (base c)) (all_components s)
         <= inertia
      /\ 0 < py_max inertia (1 / 1000).
Proof.
  intros s Hparts.
  destruct (center_of_mass_total s) as [com Hcom].
  rewrite (moment_of_inertia_sum s com Hcom).
  eexists. split; [reflexivity|].
  split; [|unfold py_max; rcases; lra].
  induction Hparts as [|c rest [Hm Ho] _ IH].
  - rewrite !py_sum_nil. lra.
  - rewrite !py_sum_cons.
    pose proof (own_inertia_nonneg (base c) Hm Ho).
    assert (0 <= Component.mass (base c)
                 * squared_distance (Component.position (base c)) com).
    { apply Rmult_le_pos; [exact Hm|]. unfold squared_distance.
      pose proof (pow2_ge_0 (fst (Component.position (base c)) - fst com)).
      pose proof (pow2_ge_0 (snd (Component.position (base c)) - snd com)).
      lra. }
    lra.
Qed.

Lemma moment_of_inertia_nonneg_witness :
  exists inertia, moment_of_inertia twin_craft = Ok inertia /\ 0 < py_max inertia (1 / 1000).
Proof.
  destruct (moment_of_inertia_nonneg twin_craft) as (i & Hi & _ & Hpos).
  - repeat constructor; simpl; lra.
  - exists i. split; assumption.
Defined.

Lemma propulsion_outcome_idle (engines : list Engine) (tanks : list FuelTank)
  (throttle orientation : R) (com : Vector2) :
  throttle <= 0 ->
  propulsion_outcome engines tanks throttle orientation com
  = ({| force := (0, 0); torque := 0;
        fuel_used := py_min (fuel_available tanks) 0 |}, tanks).
Proof.
  intros Hth.
  unfold propulsion_outcome, fuel_needed, nominal_force, nominal_torque,
    accumulate_engines.
  rewrite (clamped_low throttle Hth), engines_idle. cbn [fst snd].
  destruct (Rlt_dec 0 0) as [H|_]; [lra|].
  assert (py_min (fuel_available tanks) 0 <= 0) as Hmin
      by (unfold py_min; rcases; lra).
  destruct (Rlt_dec 0 (py_min (fuel_available tanks) 0)) as [H|_]; [lra|].
  reflexivity.
Qed.




(** * [Component.translate] *)





(** A pod whose inertia is given, not derived from its size. *)
Lemma translate_drops_override :
  Component.inertia
    (base (translate (IsComponent (Component.Build "pod" 3 (2, 1) (1, 1) 0
                                     (Some 5))) (0, 0)))
  <> Component.inertia (Component.Build "pod" 3 (2, 1) (1, 1) 0 (Some 5)).
Proof. unfold Component.inertia. simpl. lra. Qed.


(** * The salvage field *)

Lemma pop_named_some (name : string) (options : list AnyComponent) :
  forall c options',
    pop_named name options = Some (c, options') ->
    exists before after,
      options = before ++ c :: after
      /\ options' = before ++ after
      /\ Component.name (base c) = name
      /\ Forall (fun x => Component.name (base x) <> name) before.
Proof.
  induction options as [|comp rest IH]; intros c options' H; simpl in H.
  - discriminate.
  - destruct (String.eqb (Component.name (base comp)) name) eqn:Heq.
    + injection H as <- <-. apply String.eqb_eq in Heq.
      exists [], rest. repeat split; [exact Heq | constructor].
    + destruct (pop_named name rest) as [[found rest']|] eqn:Hrest;
        [|discriminate].
      injection H as <- <-.
      destruct (IH found rest' eq_refl) as (before & after & -> & -> & Hn & Hb).
      apply String.eqb_neq in Heq.
      exists (comp :: before), after.
      repeat split; [exact Hn | constructor; assumption].
Qed.

Lemma pop_named_none (name : string) (options : list AnyComponent) :
  pop_named name options = None
  <-> Forall (fun x => Component.name (base x) <> name) options.
Proof.
  induction options as [|comp rest IH]; simpl.
  - split; [constructor | reflexivity].
  - destruct (String.eqb (Component.name (base comp)) name) eqn:Heq.
    + apply String.eqb_eq in Heq. split; [discriminate|].
      intros H. inversion H; subst. contradiction.
    + apply String.eqb_neq in Heq.
      destruct (pop_named name rest) as [[found rest']|].
      * split; [discriminate|]. intros H. inversion H as [|? ? _ Hrest]; subst.
        apply IH in Hrest. discriminate.
      * split; [|reflexivity]. intros _. constructor; [exact Heq|].
        apply IH. reflexivity.
Qed.

Lemma inventory_get_key (inventory : Inventory) (category : string) :
  inventory_get inventory category <> [] -> In category (map fst inventory).
Proof.
  induction inventory as [|[key comps] rest IH]; simpl; intros H.
  - contradiction.
  - destruct (String.eqb key category) eqn:Heq.
    + left. apply String.eqb_eq, Heq.
    + right. apply IH, H.
Qed.

Lemma inventory_get_missing (inventory : Inventory) (category : string) :
  ~ In category (map fst inventory) -> inventory_get inventory category = [].
Proof.
  induction inventory as [|[key comps] rest IH]; simpl; intros H.
  - reflexivity.
  - destruct (String.eqb key category) eqn:Heq.
    + apply String.eqb_eq in Heq. tauto.
    + apply IH. tauto.
Qed.

Lemma inventory_get_set_same (inventory : Inventory) (category : string)
  (comps : list AnyComponent) :
  In category (map fst inventory) ->
  inventory_get (inventory_set inventory category comps) category = comps.
Proof.
  induction inventory as [|[key old] rest IH]; simpl; intros H.
  - contradiction.
  - destruct (String.eqb key category) eqn:Heq; simpl; rewrite Heq.
    + reflexivity.
    + apply IH. destruct H as [H|H]; [|exact H].
      apply String.eqb_neq in Heq. contradiction.
Qed.

Lemma inventory_get_set_other (inventory : Inventory)
  (category other : string) (comps : list AnyComponent) :
  other <> category ->
  inventory_get (inventory_set inventory category comps) other
  = inventory_get inventory other.
Proof.
  intros Hneq.
  induction inventory as [|[key old] rest IH]; simpl; [reflexivity|].
  destruct (String.eqb key category) eqn:Heq; simpl.
  - apply String.eqb_eq in Heq. subst key.
    destruct (String.eqb category other) eqn:Ho; [|reflexivity].
    apply String.eqb_eq in Ho. congruence.
  - rewrite IH. reflexivity.
Qed.

Lemma inventory_set_keys (inventory : Inventory) (category : string)
  (comps : list AnyComponent) :
  map fst (inventory_set inventory category comps) = map fst inventory.
Proof.
  induction inventory as [|[key old] rest IH]; simpl; [reflexivity|].
  destruct (String.eqb key category); simpl; [reflexivity|].
  rewrite IH. reflexivity.
Qed.

(** X16: a successful [take] returns the first component of the asked name
    in the asked category and removes exactly that element from the
    category's list; the other categories and the set of categories are as
    before. *)
Theorem take_removes_first_match :
  forall (inventory : Inventory) (category name : string)
         (c : AnyComponent) (inventory' : Inventory),
    take inventory category name = Found (c, inventory') ->
    Component.name (base c) = name
    /\ (exists before after,
          inventory_get inventory category = before ++ c :: after
          /\ Forall (fun x => Component.name (base x) <> name) before
          /\ inventory_get inventory' category = before ++ after)
    /\ (forall other, other <> category ->
          inventory_get inventory' other = inventory_get inventory other)
    /\ map fst inventory' = map fst inventory.
Proof.
  intros inventory category name c inventory' H. unfold take in H.
  destruct (pop_named name (inventory_get inventory category))
    as [[found options']|] eqn:Hpop; [|discriminate].
  injection H as <- <-.
  destruct (pop_named_some _ _ _ _ Hpop) as (before & after & Hl & -> & Hn & Hb).
  split; [exact Hn|]. split; [|split].
  - exists before, after. split; [exact Hl|]. split; [exact Hb|].
    apply inventory_get_set_same, inventory_get_key.
    rewrite Hl. destruct before; discriminate.
  - intros other Ho. apply inventory_get_set_other, Ho.
  - apply inventory_set_keys.
Qed.

(** X17: [take] raises [KeyError] exactly when the asked category holds no
    component of the asked name, as when the category is not in the
    inventory at all; and when the names in a category are distinct, taking
    the same name a second time raises [KeyError]. *)
Theorem take_raises_when_absent :
  forall (inventory : Inventory) (category name : string),
    (take inventory category name = KeyError
     <-> Forall (fun x => Component.name (base x) <> name)
           (inventory_get inventory category))
    /\ (~ In category (map fst inventory) ->
        take inventory category name = KeyError)
    /\ (forall c inventory',
          NoDup (map (fun x => Component.name (base x))
                   (inventory_get inventory category)) ->
          take inventory category name = Found (c, inventory') ->
          take inventory' category name = KeyError).
Proof.
  intros inventory category name.
  assert (take inventory category name = KeyError
          <-> Forall (fun x => Component.name (base x) <> name)
                (inventory_get inventory category)) as Hiff.
  { unfold take. rewrite <- pop_named_none.
    destruct (pop_named name (inventory_get inventory category)) as [[c l]|];
      split; intros H; try discriminate; reflexivity. }
  split; [exact Hiff|]. split.
  - intros Hmissing. apply Hiff.
    rewrite (inventory_get_missing _ _ Hmissing). constructor.
  - intros c inventory' Hdup Htake.
    unfold take in Htake.
    destruct (pop_named name (inventory_get inventory category))
      as [[found options']|] eqn:Hpop; [|discriminate].
    injection Htake as <- <-.
    destruct (pop_named_some _ _ _ _ Hpop)
      as (before & after & Hl & -> & Hn & Hb).
    unfold take.
    rewrite inventory_get_set_same
      by (apply inventory_get_key; rewrite Hl; destruct before; discriminate).
    assert (pop_named name (before ++ after) = None) as ->; [|reflexivity].
    apply pop_named_none. apply Forall_app. split; [exact Hb|].
    rewrite Hl, map_app in Hdup. cbn [map] in Hdup.
    apply NoDup_remove_2 in Hdup.
    apply Forall_forall. intros x Hx Hname. apply Hdup.
    apply in_or_app. right. rewrite Hn, <- Hname.
    apply (in_map (fun x => Component.name (base x))), Hx.
Qed.

Lemma take_removes_first_match_witness :
  exists c inventory',
    take default_inventory "hull" "Aft Hull" = Found (c, inventory')
    /\ Component.name (base c) = "Aft Hull"%string.
Proof.
  eexists. eexists. split; [reflexivity|].
  apply (take_removes_first_match default_inventory "hull" "Aft Hull" _ _
           eq_refl).
Defined.

Lemma take_raises_when_absent_witness :
  take default_inventory "sail" "Main Sail" = KeyError.
Proof.
  apply (proj1 (proj2 (take_raises_when_absent default_inventory "sail"
                         "Main Sail"))).
  simpl. intros H. repeat (destruct H as [H|H]; [discriminate H|]). exact H.
Defined.

Lemma take_and_attach_count (category name : string)
  (ship ship' : Spaceship.t) (inventory inventory' : Inventory) :
  take_and_attach category name (ship, inventory) = Found (ship', inventory') ->
  List.length (all_components ship') = S (List.length (all_components ship))
  /\ position ship' = position ship
  /\ velocity ship' = velocity ship
  /\ orientation ship' = orientation ship
  /\ angular_velocity ship' = angular_velocity ship.
Proof.
  unfold take_and_attach.
  destruct (take inventory category name) as [[c inv]|]; [|discriminate].
  cbn [lookup_bind fst snd]. intros H. injection H as <- <-.
  split.
  - rewrite (Permutation_length (all_components_attach ship c)). reflexivity.
  - destruct c; repeat split; reflexivity.
Qed.

Lemma take_all_count (parts : list (string * string)) :
  forall (ship ship' : Spaceship.t) (inventory inventory' : Inventory),
    take_all parts (ship, inventory) = Found (ship', inventory') ->
    List.length (all_components ship')
    = (List.length (all_components ship) + List.length parts)%nat
    /\ position ship' = position ship
    /\ velocity ship' = velocity ship
    /\ orientation ship' = orientation ship
    /\ angular_velocity ship' = angular_velocity ship.
Proof.
  induction parts as [|[category name] rest IH];
    intros ship ship' inventory inventory' H.
  - injection H as <- <-. rewrite Nat.add_0_r. repeat split; reflexivity.
  - cbn [take_all] in H.
    destruct (take_and_attach category name (ship, inventory))
      as [[ship1 inv1]|] eqn:Hone; [|discriminate].
    cbn [lookup_bind] in H.
    destruct (take_and_attach_count _ _ _ _ _ _ Hone)
      as (Hlen & Hp & Hv & Ho & Hw).
    destruct (IH _ _ _ _ H) as (Hlen' & Hp' & Hv' & Ho' & Hw').
    rewrite Hlen' , Hlen, Hp', Hv', Ho', Hw'. cbn [List.length].
    repeat split; try assumption. rewrite Nat.add_succ_r. reflexivity.
Qed.

(** X18: whatever the inventory, a ship that [spawn_default_ship] returns
    has exactly ten parts and the kinematic state of a new craft.  From the
    default inventory the call succeeds: the tanks are listed Primary Tank
    then Aux Tank (the drain order), the engines Twin Thruster then Vernier
    Thruster, the generic parts are the cockpit and the two hulls; every
    category is left empty, so a second call on the same field raises
    [KeyError]. *)
Theorem spawn_default_ship_once :
  (forall (inventory inventory' : Inventory) (ship : Spaceship.t),
      spawn_default_ship inventory = Found (ship, inventory') ->
      List.length (all_components ship) = 10%nat
      /\ position ship = (0, 0)
      /\ velocity ship = (0, 0)
      /\ orientation ship = radians 90
      /\ angular_velocity ship = 0)
  /\ exists ship inventory',
      spawn_default_ship (SalvageField []) = Found (ship, inventory')
      /\ map (fun tk => Component.name (tank_base tk)) (fuel_tanks ship)
         = ["Primary Tank"; "Aux Tank"]%string
      /\ map (fun e => Component.name (engine_base e)) (engines ship)
         = ["Twin Thruster"; "Vernier Thruster"]%string
      /\ map (fun w => Component.name (wing_base w)) (wings ship)
         = ["Port Wing"; "Starboard Wing"; "Tail Plane"]%string
      /\ map (fun c => Component.name (base c)) (components ship)
         = ["Survey Cockpit"; "Forward Hull"; "Aft Hull"]%string
      /\ well_partitioned ship
      /\ map fst inventory'
         = ["cockpit"; "hull"; "tank"; "engine"; "wing"]%string
      /\ Forall (fun entry => snd entry = []) inventory'
      /\ spawn_default_ship inventory' = KeyError.
Proof.
  split.
  - intros inventory inventory' ship H.
    apply (take_all_count default_parts Spaceship.new ship inventory inventory')
      in H.
    exact H.
  - eexists. eexists. split; [reflexivity|].
    split; [reflexivity|]. split; [reflexivity|]. split; [reflexivity|].
    split; [reflexivity|].
    split; [repeat constructor|].
    split; [reflexivity|].
    split; [repeat constructor | reflexivity].
Qed.

Lemma spawn_default_ship_once_witness :
  exists ship inventory',
    spawn_default_ship default_inventory = Found (ship, inventory')
    /\ List.length (all_components ship) = 10%nat.
Proof.
  eexists. eexists. split; [reflexivity|].
  apply (proj1 spawn_default_ship_once default_inventory _ _ eq_refl).
Defined.

(** * The demo driver *)








Lemma simulate_step_total (s : Spaceship.t) (throttle dt : R)
  (control_surfaces : option (list (string * R))) :
  exists s', simulate_step s throttle dt control_surfaces = Ok s'.
Proof.
  destruct (simulate_step_frame s throttle dt control_surfaces) as (s' & H & _).
  exists s'. exact H.
Qed.

Section RunLoop.

Variables duration dt : R.

Lemma run_loop_spec (profile : list R) :
  forall (ship : Spaceship.t) (time : R),
  exists ship' entries,
    run_loop ship duration dt profile time = Ok (ship', entries)
    /\ (List.length entries <= List.length profile)%nat
    /\ (profile <> [] -> entries <> [])
    /\ (forall i e, nth_error entries i = Some e ->
          entry_time e = time + INR (S i) * dt)
    /\ (forall i e, nth_error entries i = Some e ->
          (S i < List.length entries)%nat -> entry_time e < duration)
    /\ ((List.length entries < List.length profile)%nat ->
        exists e, nth_error entries (List.length entries - 1) = Some e
                  /\ duration <= entry_time e).
Proof.
  induction profile as [|throttle rest IH]; intros ship time.
  - exists ship, []. split; [reflexivity|]. split; [apply Nat.le_refl|].
    split; [intros H; contradiction H; reflexivity|].
    split; [intros [|i] e H; discriminate H|].
    split; [intros [|i] e H; discriminate H|].
    cbn [List.length]. intros H. lia.
  - cbn [run_loop].
    destruct (simulate_step_total ship throttle dt None) as [ship1 ->].
    cbn [bind].
    set (entry := {| entry_time := time + dt;
                     entry_position := position ship1;
                     entry_velocity := velocity ship1;
                     entry_speed := length (velocity ship1);
                     entry_altitude := snd (position ship1);
                     entry_orientation := degrees (orientation ship1) |}).
    destruct (Rle_dec duration (time + dt)) as [Hstop|Hgo].
    + exists ship1, [entry]. split; [reflexivity|].
      cbn [List.length]. split; [lia|]. split; [discriminate|].
      split; [|split].
      * intros [|i] e H; [|destruct i; discriminate H].
        injection H as <-. cbn [entry_time entry INR]. ring.
      * intros i e _ H. lia.
      * intros _. exists entry. split; [reflexivity | exact Hstop].
    + destruct (IH ship1 (time + dt))
        as (ship' & entries & -> & Hlen & Hne & Htime & Hbefore & Hlast).
      cbn [bind]. exists ship', (entry :: entries).
      split; [reflexivity|]. cbn [List.length].
      split; [lia|]. split; [discriminate|]. split; [|split].
      * intros [|i] e H.
        -- injection H as <-. cbn [entry_time entry INR]. ring.
        -- cbn [nth_error] in H. rewrite (Htime i e H), !S_INR. ring.
      * intros [|i] e H Hi.
        -- injection H as <-. cbn [entry_time entry]. lra.
        -- cbn [nth_error] in H. apply (Hbefore i e H). lia.
      * intros Hshort.
        destruct Hlast as (e & He & Hd); [lia|].
        exists e. split; [|exact Hd].
        destruct entries as [|e0 entries0]; [discriminate He|].
        cbn [List.length] in *.
        replace (S (S (List.length entries0)) - 1)%nat
          with (S (S (List.length entries0) - 1)) by lia.
        exact He.
Qed.

End RunLoop.

(** X20: whenever [run_simulation] returns, it has stepped the craft once
    per throttle until the running time reached [duration]: the timeline is
    never longer than the profile and is not empty unless the profile is
    (the first step is taken even when [duration <= 0]); the first entry
    carries the time [0 + dt] and each entry the time of the one before
    plus [dt]; every entry but the last is earlier than [duration]; and if
    the profile was cut short, the last entry is at or past [duration]. *)
Theorem run_simulation_timeline :
  forall (ship ship' : Spaceship.t) (duration dt : R)
         (throttle_profile : list R) (timeline : list TimelineEntry),
    run_simulation ship duration dt throttle_profile = Ok (ship', timeline) ->
    (List.length timeline <= List.length throttle_profile)%nat
    /\ (throttle_profile <> [] -> timeline <> [])
    /\ (forall e, nth_error timeline 0 = Some e -> entry_time e = 0 + dt)
    /\ (forall i e e', nth_error timeline i = Some e ->
          nth_error timeline (S i) = Some e' ->
          entry_time e' = entry_time e + dt)
    /\ (forall i e, nth_error timeline i = Some e ->
          (S i < List.length timeline)%nat -> entry_time e < duration)
    /\ ((List.length timeline < List.length throttle_profile)%nat ->
        exists e, nth_error timeline (List.length timeline - 1) = Some e
                  /\ duration <= entry_time e).
Proof.
  intros ship ship' duration dt throttle_profile timeline Hreturned.
  unfold run_simulation in Hreturned.
  destruct (run_loop_spec duration dt throttle_profile ship 0)
    as (ship'' & entries & Hrun & Hlen & Hne & Htime & Hbefore & Hlast).
  assert (entries = timeline) as -> by congruence.
  split; [exact Hlen|]. split; [exact Hne|].
  split; [|split; [|split; assumption]].
  - intros e H. rewrite (Htime 0%nat e H). cbn [INR]. ring.
  - intros i e e' H H'.
    rewrite (Htime i e H), (Htime (S i) e' H'), !S_INR. ring.
Qed.

Lemma run_simulation_timeline_witness :
  exists ship' timeline,
    run_simulation rocket 0 1 [1; 1] = Ok (ship', timeline)
    /\ timeline <> [].
Proof.
  destruct (run_loop_spec 0 1 [1; 1] rocket 0)
    as (ship' & timeline & Hrun & _).
  exists ship', timeline. split; [exact Hrun|].
  apply (run_simulation_timeline rocket ship' 0 1 [1; 1] timeline Hrun).
  discriminate.
Defined.


(** * Fuel over a tick *)

(** X22: a tick never adds fuel: whenever it returns, the total fuel level
    is at most the one before, [0 <= fuel_level <= fuel_capacity] holds on
    every tank if it held before, and no tank is touched when the throttle
    is zero or below. *)
Theorem simulate_step_never_adds_fuel :
  forall (s s' : Spaceship.t) (throttle dt : R)
         (control_surfaces : option (list (string * R))),
    simulate_step s throttle dt control_surfaces = Ok s' ->
    fuel_available (fuel_tanks s') <= fuel_available (fuel_tanks s)
    /\ (Forall tank_ok (fuel_tanks s) -> Forall tank_ok (fuel_tanks s'))
    /\ (throttle <= 0 -> fuel_tanks s' = fuel_tanks s).
Proof.
  intros s s' throttle dt control_surfaces Hreturned.
  destruct (simulate_step_frame s throttle dt control_surfaces)
    as (s'' & Hstep & _ & _ & _ & _ & _ & _ & Htanks).
  assert (s'' = s') as -> by congruence.
  destruct (center_of_mass_total s) as [com Hcom].
  rewrite (Htanks com Hcom).
  split; [|split].
  - pose proof (propulsion_conserves (engines s) (fuel_tanks s) throttle
                  (orientation s) com) as Hc.
    cbv zeta in Hc.
    assert (0 <= py_max 0
                   (fuel_used
                      (fst (propulsion_outcome (engines s) (fuel_tanks s)
                              throttle (orientation s) com))))
      by (unfold py_max; rcases; lra).
    lra.
  - intros Hok. unfold propulsion_outcome. cbn [snd].
    destruct (Rlt_dec 0 _); [apply drain_tanks_ok|]; exact Hok.
  - intros Hth. rewrite (propulsion_outcome_idle _ _ _ _ _ Hth). reflexivity.
Qed.

Lemma simulate_step_never_adds_fuel_witness :
  exists s',
    simulate_step burning_craft 1 1 None = Ok s'
    /\ Forall tank_ok (fuel_tanks s').
Proof.
  destruct (simulate_step_total burning_craft 1 1 None) as [s' Hstep].
  exists s'. split; [exact Hstep|].
  apply (simulate_step_never_adds_fuel burning_craft s' 1 1 None Hstep).
  exact half_tank_ok.
Defined.

Lemma semi_implicit_zero_dt (p v : Vector2) (o w : R) (f : Vector2)
  (tq m inertia : R) :
  semi_implicit_euler p v o w f tq m inertia 0 = (p, v, o, w).
Proof.
  destruct p as [px p_y], v as [vx vy].
  unfold semi_implicit_euler. cbn [fst snd].
  destruct (Rlt_dec 0 m); destruct (Rlt_dec 0 inertia); cbn [fst snd];
    tuple_eq; ring.
Qed.

(** X23: the fuel a tick burns does not depend on [dt]: ticks of any two
    lengths leave the same tanks; in particular a tick with [dt = 0] leaves
    position, velocity, orientation and angular velocity as they were and
    still drains the tanks like any other tick. *)
Theorem tick_fuel_independent_of_dt :
  forall (s : Spaceship.t) (throttle dt1 dt2 : R)
         (control_surfaces : option (list (string * R))),
  exists s1 s2 s0,
    simulate_step s throttle dt1 control_surfaces = Ok s1
    /\ simulate_step s throttle dt2 control_surfaces = Ok s2
    /\ simulate_step s throttle 0 control_surfaces = Ok s0
    /\ fuel_tanks s1 = fuel_tanks s2
    /\ fuel_tanks s0 = fuel_tanks s1
    /\ position s0 = position s
    /\ velocity s0 = velocity s
    /\ orientation s0 = orientation s
    /\ angular_velocity s0 = angular_velocity s.
Proof.
  intros s throttle dt1 dt2 control_surfaces.
  destruct (simulate_step_frame s throttle dt1 control_surfaces)
    as (s1 & Hstep1 & _ & _ & _ & _ & _ & _ & Htanks1).
  destruct (simulate_step_frame s throttle dt2 control_surfaces)
    as (s2 & Hstep2 & _ & _ & _ & _ & _ & _ & Htanks2).
  destruct (simulate_step_inv s throttle 0 control_surfaces)
    as (com & aero & inertia & Hcom & _ & _ & Hstep0).
  cbv zeta in Hstep0. unfold tick_state in Hstep0.
  rewrite semi_implicit_zero_dt in Hstep0.
  exists s1, s2. eexists. split; [exact Hstep1|]. split; [exact Hstep2|].
  split; [exact Hstep0|].
  rewrite (Htanks1 com Hcom), (Htanks2 com Hcom).
  repeat split; reflexivity.
Qed.
